(** * Voice translator: embedding of the translation and voice-cloning pipeline

    Sources embedded here (paths relative to the repository):
    - [VoiceCloningService] (TypeScript service: profile store, synthesis
      queue, real-time cloning),
    - [VoiceCloningModule] (Android native module) and its iOS twin
      [VoiceCloning]: the native profile map and the cosine similarity,
    - [SeamlessM4TService] (on-device translation service),
    - [TranslationService] (text translation with its fallback),
    - [VoiceService] (voice translation entry points),
    - [CallScreen] (the periodic capture loop of a call).

    JavaScript numbers are IEEE 754 binary64 values: they are modelled by
    Rocq's primitive floats, whose operations are the same ones.  The two
    numeric kernels ([averageEmbeddings], [calculateCosineSimilarity]) are
    written once over an arbitrary carrier and instantiated at [float] (what
    the program computes) and at [R] (what the formulas mean).

    A promise is modelled by its outcome: [Ok v] when it resolves with [v],
    [Err e] when it rejects with [e].  A [try]/[catch] is [catch]. *)

From Stdlib Require Import Floats.PrimFloat.
From Stdlib Require Numbers.Cyclic.Int63.Uint63.
From Stdlib Require Import Reals.Reals Lra.
From Stdlib Require Import ZArith Lia.
From stdpp Require Import gmap strings list.

Set Default Proof Using "Type".
Set Warnings "-inexact-float".

(* ===================================================================== *)
(** ** Outcomes of asynchronous calls *)
(* ===================================================================== *)

(** What a rejected promise carries: a JavaScript [Error] built by the
    service ([new Error(message)]), a rejection of a native module
    ([promise.reject(code, message)]), or a [TypeError] of the runtime
    (a property read on [undefined]). *)
Inductive Error : Type :=
  | JsError (message : string)
  | NativeReject (code message : string)
  | TypeError (message : string).

Inductive Result (A : Type) : Type :=
  | Ok (value : A)
  | Err (error : Error).
Arguments Ok {A} value.
Arguments Err {A} error.

#[global] Instance Result_ret : MRet Result := fun A a => Ok a.

(** [const x = await r; k x]: a rejection propagates. *)
#[global] Instance Result_bind : MBind Result := fun A B k r =>
  match r with
  | Ok a => k a
  | Err e => Err e
  end.

(** [try { body } catch (error) { handler }] *)
Definition catch {A : Type} (body : Result A) (handler : Error -> Result A) : Result A :=
  match body with
  | Ok a => Ok a
  | Err e => handler e
  end.

Definition isOk {A : Type} (r : Result A) : bool :=
  match r with Ok _ => true | Err _ => false end.

(** [for (const x of xs) { ys.push(await f(x)) }]: the first rejection
    leaves the loop. *)
Fixpoint forEachAwait {A B : Type} (f : A -> Result B) (xs : list A) : Result (list B) :=
  match xs with
  | [] => Ok []
  | x :: rest =>
      y ← f x;
      ys ← forEachAwait f rest;
      Ok (y :: ys)
  end.

(* ===================================================================== *)
(** ** The numeric kernels, over any carrier *)
(* ===================================================================== *)

Module Generic.
Section Kernels.
Context {T : Type}.
(** [zero] is the literal [0] (or [0.0]); [ofLength n] is the array length
    [n] read as a number; [undef] is what [acc += a[i]] adds when [i] is
    past the end of [a] (in JavaScript [undefined], which [+=] turns into
    NaN). *)
Variables (zero : T) (add mul div : T -> T -> T) (sqrt : T -> T).
Variables (ofLength : nat -> T) (undef : T).

(** The inner loop of [averageEmbeddings]:
    [for (i = 0; i < embeddingSize; i++) avgEmbedding[i] += embedding[i]].
    The bound is the length of the accumulator, not of [embedding]. *)
Fixpoint addInto (avgEmbedding embedding : list T) : list T :=
  match avgEmbedding with
  | [] => []
  | a :: rest => add a (hd undef embedding) :: addInto rest (tl embedding)
  end.

(** [VoiceCloningService.averageEmbeddings] *)
Definition averageEmbeddings (embeddings : list (list T)) : list T :=
  match embeddings with
  | [] => []
  | first :: _ =>
      let embeddingSize := length first in
      let avgEmbedding := repeat zero embeddingSize in
      let sums := fold_left addInto embeddings avgEmbedding in
      map (fun s => div s (ofLength (length embeddings))) sums
  end.

(** One round of the loop of [calculateCosineSimilarity]: the three
    accumulators [dotProduct], [norm1], [norm2]. *)
Definition cosineStep (acc : T * T * T) (xy : T * T) : T * T * T :=
  let '(dotProduct, norm1, norm2) := acc in
  let '(x, y) := xy in
  (add dotProduct (mul x y), add norm1 (mul x x), add norm2 (mul y y)).

(** [VoiceCloningModule.calculateCosineSimilarity] (Android) and
    [calculateCosineSimilarity:embeddings2:] (iOS) *)
Definition calculateCosineSimilarity (vector1 vector2 : list T) : T :=
  if negb (length vector1 =? length vector2)%nat then zero
  else
    let '(dotProduct, norm1, norm2) :=
      fold_left cosineStep (combine vector1 vector2) (zero, zero, zero) in
    div dotProduct (mul (sqrt norm1) (sqrt norm2)).

(** The quantities the specification speaks of. *)

(** Component [i] of every sample embedding, in sample order. *)
Definition column (i : nat) (embeddings : list (list T)) : list T :=
  map (fun e => nth i e undef) embeddings.

(** The sum of a list, accumulated from [zero] in list order. *)
Definition total (xs : list T) : T := fold_left add xs zero.

(** The arithmetic mean of a list. *)
Definition mean (xs : list T) : T := div (total xs) (ofLength (length xs)).

(** The dot product of two vectors. *)
Definition dot (a b : list T) : T :=
  total (map (fun xy => mul (fst xy) (snd xy)) (combine a b)).

(** The cosine similarity [dot(a,b) / (norm(a) * norm(b))]. *)
Definition cosine (a b : list T) : T :=
  div (dot a b) (mul (sqrt (dot a a)) (sqrt (dot b b))).
End Kernels.
End Generic.

(** An array length read as a binary64 number. *)
Definition lengthAsNumber (n : nat) : float :=
  PrimFloat.of_uint63 (Uint63.of_Z (Z.of_nat n)).

(* ===================================================================== *)
(** ** Data model ([VoiceCloningService], TypeScript) *)
(* ===================================================================== *)

Inductive Emotion : Type := neutral | happy | sad | angry | excited | calm.
Inductive Age : Type := young | middle | old.
Inductive Gender : Type := male | female | neutralGender.
Inductive Quality : Type := low | medium | high | ultra.

(** [interface VoiceCharacteristics] *)
Record VoiceCharacteristics : Type := {
  pitch : float;
  speed : float;
  emotion : Emotion;
  accent : option string;
  age : option Age;
  gender : option Gender
}.

(** The literal [{pitch: 0, speed: 1.0, emotion: 'neutral'}]. *)
Definition defaultCharacteristics : VoiceCharacteristics :=
  {| pitch := 0; speed := 1; emotion := neutral;
     accent := None; age := None; gender := None |}.

(** [interface VoiceCloneResult] *)
Record VoiceCloneResult : Type := {
  audioPath : string;
  similarity : float;
  duration : float;
  appliedCharacteristics : VoiceCharacteristics
}.

(** [interface VoiceSynthesisOptions] *)
Record VoiceSynthesisOptions : Type := {
  language : string;
  optCharacteristics : option VoiceCharacteristics;
  optQuality : option Quality;
  realTime : option bool
}.

(** The profile object built by [createVoiceProfile]. *)
Record VoiceProfile : Type := {
  id : string;
  name : string;
  audioSamples : list string;
  embeddings : list float;
  characteristics : VoiceCharacteristics;
  createdAt : Z;
  isActive : bool;
  quality : Quality
}.

(** [profile.isActive = b] *)
Definition setIsActive (b : bool) (p : VoiceProfile) : VoiceProfile :=
  {| id := id p; name := name p; audioSamples := audioSamples p;
     embeddings := embeddings p; characteristics := characteristics p;
     createdAt := createdAt p; isActive := b; quality := quality p |}.

(** The inference kernels behind the native module (speaker encoder,
    synthesizer, converter, audio post-processing) are outside the
    repository's logic: one value of this record fixes what the native
    method of each name answers. *)
Record Backend : Type := {
  nativeExtractVoiceEmbeddings : string -> Result (list float);
  nativeSynthesizeVoice : string -> string -> string -> option Emotion -> Result (string * float);
  nativeAdjustVoiceCharacteristics : string -> float -> float -> Emotion -> Result string;
  nativeEnhanceAudioQuality : string -> Result string;
  nativeCloneVoiceFromSample : string -> string -> string -> Result (string * float)
}.

(* ===================================================================== *)
(** ** The native module's profile map ([VoiceCloningModule], Java) *)
(* ===================================================================== *)

Module VoiceCloningModule.

(** [private static class VoiceProfile] *)
Record NativeProfile : Type := {
  nativeId : string;
  nativeName : string;
  nativeEmbeddings : list float;
  nativeAudioSamples : list string
}.

Record t : Type := {
  isInitialized : bool;
  voiceProfiles : gmap string NativeProfile
}.

Definition initial : t := {| isInitialized := false; voiceProfiles := ∅ |}.

Section Native.
(** [narrow x] is [(double) (float) x]: the Android module stores
    embeddings as [float[]].  On iOS the values stay [double] and
    [narrow] is the identity. *)
Variable narrow : float -> float.

(** [calculateCosineSimilarity(float[] vector1, float[] vector2)]: the
    products are taken on [float] and added to [double] accumulators. *)
Definition calculateCosineSimilarity : list float -> list float -> float :=
  Generic.calculateCosineSimilarity 0%float PrimFloat.add
    (fun x y => narrow (PrimFloat.mul x y)) PrimFloat.div PrimFloat.sqrt.

(** [createVoiceProfile]; [clock] is the decimal text of
    [System.currentTimeMillis()]. *)
Definition createVoiceProfile (clock : string) (profileName : string)
    (audioSamples : list string) (embeddings : list float) (m : t)
    : Result (string * list float) * t :=
  if negb (isInitialized m) then
    (Err (NativeReject "NOT_INITIALIZED" "Voice cloning not initialized"), m)
  else
    let profileId := "profile_" +:+ clock in
    let embeddingArray := map narrow embeddings in
    let profile := {| nativeId := profileId; nativeName := profileName;
                      nativeEmbeddings := embeddingArray;
                      nativeAudioSamples := audioSamples |} in
    (Ok (profileId, embeddingArray),
     {| isInitialized := isInitialized m;
        voiceProfiles := <[profileId := profile]> (voiceProfiles m) |}).

(** [compareVoiceProfiles] *)
Definition compareVoiceProfiles (profileId1 profileId2 : string) (m : t)
    : Result float :=
  match voiceProfiles m !! profileId1, voiceProfiles m !! profileId2 with
  | Some profile1, Some profile2 =>
      Ok (calculateCosineSimilarity (nativeEmbeddings profile1)
                                    (nativeEmbeddings profile2))
  | _, _ => Err (NativeReject "PROFILE_NOT_FOUND" "One or both profiles not found")
  end.

(** [cleanupVoiceProfile] *)
Definition cleanupVoiceProfile (profileId : string) (m : t) : Result unit * t :=
  (Ok tt, {| isInitialized := isInitialized m;
             voiceProfiles := delete profileId (voiceProfiles m) |}).

(** [initializeVoiceCloning]; [modelsDirExists] is [modelsDir.exists()]. *)
Definition initializeVoiceCloning (modelsDirExists : bool) (m : t) : Result bool * t :=
  if isInitialized m then (Ok true, m)
  else if modelsDirExists then
    (Ok true, {| isInitialized := true; voiceProfiles := voiceProfiles m |})
  else (Err (NativeReject "MODELS_NOT_FOUND" "Voice cloning models not found"), m).
End Native.
End VoiceCloningModule.

(* ===================================================================== *)
(** ** Temporary storage ([react-native-fs]) *)
(* ===================================================================== *)

Module RNFS.

(** A computation over the file store (path to content) that resolves or
    rejects, and leaves the store as it was when it stopped. *)
Definition IO (A : Type) : Type :=
  gmap string string -> Result A * gmap string string.

Definition ret {A : Type} (a : A) : IO A := fun fs => (Ok a, fs).

Definition lift {A : Type} (r : Result A) : IO A := fun fs => (r, fs).

Definition seq {A B : Type} (m : IO A) (k : A -> IO B) : IO B := fun fs =>
  match m fs with
  | (Ok a, fs1) => k a fs1
  | (Err e, fs1) => (Err e, fs1)
  end.

(** [try { body } catch (error) { handler }] *)
Definition try {A : Type} (body : IO A) (handler : Error -> IO A) : IO A := fun fs =>
  match body fs with
  | (Ok a, fs1) => (Ok a, fs1)
  | (Err e, fs1) => handler e fs1
  end.

Definition writeFile (path data : string) : IO unit := fun fs =>
  (Ok tt, <[path := data]> fs).

Definition readFile (path : string) : IO string := fun fs =>
  match fs !! path with
  | Some data => (Ok data, fs)
  | None => (Err (NativeReject "ENOENT" "no such file"), fs)
  end.

Definition unlink (path : string) : IO unit := fun fs =>
  match fs !! path with
  | Some _ => (Ok tt, delete path fs)
  | None => (Err (NativeReject "ENOENT" "File does not exist"), fs)
  end.

Definition copyFile (from to : string) : IO unit := fun fs =>
  match fs !! from with
  | Some data => (Ok tt, <[to := data]> fs)
  | None => (Err (NativeReject "ENOENT" "no such file"), fs)
  end.

(** A native call that answers [r] and leaves the files [produced] behind
    (the audio it rendered). *)
Definition native {A : Type} (r : Result A) (produced : gmap string string) : IO A :=
  fun fs => (r, produced ∪ fs).

End RNFS.

Notation "x <~ m ;; k" := (RNFS.seq m (fun x => k))
  (at level 100, m at next level, right associativity, only parsing).

(** [interface AudioChunk] *)
Record AudioChunk : Type := {
  chunkId : string;
  chunkData : string;
  chunkTimestamp : Z;
  chunkDuration : float
}.

(** A JavaScript value held where the program expects text: a string, or an
    object named by where it comes from. *)
Inductive JsValue : Type :=
  | VString (s : string)
  | VObject (origin : string).

(** The names every object literal inherits from [Object.prototype]. *)
Definition objectPrototypeKeys : list string :=
  ["constructor"; "__proto__"; "toString"; "toLocaleString"; "valueOf";
   "hasOwnProperty"; "isPrototypeOf"; "propertyIsEnumerable";
   "__defineGetter__"; "__defineSetter__"; "__lookupGetter__"; "__lookupSetter__"].

Fixpoint ownProperty (own : list (string * string)) (key : string) : option string :=
  match own with
  | [] => None
  | (k, v) :: rest => if bool_decide (k = key) then Some v else ownProperty rest key
  end.

(** The read [object[key]] on an object literal with the string properties
    [own]: an own property, else an inherited one, else [undefined]
    ([None]). *)
Definition readProperty (own : list (string * string)) (key : string) : option JsValue :=
  match ownProperty own key with
  | Some v => Some (VString v)
  | None =>
      if bool_decide (key ∈ objectPrototypeKeys)
      then Some (VObject ("Object.prototype." +:+ key))
      else None
  end.

(** [interface TranslationResult] *)
Record TranslationResult : Type := {
  originalText : string;
  translatedText : JsValue;
  sourceLanguage : string;
  targetLanguage : string;
  confidence : float;
  timestamp : Z
}.

(* ===================================================================== *)
(** ** [VoiceCloningService] (TypeScript) *)
(* ===================================================================== *)

Module VoiceCloningService.

(** An entry of [synthesisQueue].  The pair [resolve]/[reject] of the entry
    belongs to one promise; [promise] names it. *)
Record Request : Type := {
  text : string;
  profileId : string;
  options : VoiceSynthesisOptions;
  promise : nat
}.

(** An invocation of [processSynthesisQueue] suspended at
    [await this.performVoiceSynthesis(...)]: the request it shifted, and
    what [this.voiceProfiles.get(profileId)] returned when
    [performVoiceSynthesis] was entered. *)
Record Worker : Type := {
  request : Request;
  profileAtEntry : option VoiceProfile
}.

(** The fields of the service object, followed by the bookkeeping of the
    model: the suspended workers, the promises settled so far (in the order
    [resolve]/[reject] were called) and the number of promises created. *)
Record t : Type := {
  isInitialized : bool;
  voiceProfiles : gmap string VoiceProfile;
  synthesisQueue : list Request;
  isProcessing : bool;
  nativeModule : VoiceCloningModule.t;
  running : list Worker;
  settled : list (nat * Result VoiceCloneResult);
  promises : nat
}.

(** The service object after its constructor, before any profile file is
    read. *)
Definition initial : t :=
  {| isInitialized := false; voiceProfiles := ∅; synthesisQueue := [];
     isProcessing := false; nativeModule := VoiceCloningModule.initial;
     running := []; settled := []; promises := 0 |}.

Definition withInitialized (b : bool) (s : t) : t :=
  {| isInitialized := b; voiceProfiles := voiceProfiles s;
     synthesisQueue := synthesisQueue s; isProcessing := isProcessing s;
     nativeModule := nativeModule s; running := running s;
     settled := settled s; promises := promises s |}.

Definition withProfiles (m : gmap string VoiceProfile) (s : t) : t :=
  {| isInitialized := isInitialized s; voiceProfiles := m;
     synthesisQueue := synthesisQueue s; isProcessing := isProcessing s;
     nativeModule := nativeModule s; running := running s;
     settled := settled s; promises := promises s |}.

Definition withNative (n : VoiceCloningModule.t) (s : t) : t :=
  {| isInitialized := isInitialized s; voiceProfiles := voiceProfiles s;
     synthesisQueue := synthesisQueue s; isProcessing := isProcessing s;
     nativeModule := n; running := running s;
     settled := settled s; promises := promises s |}.

Definition withQueue (q : list Request) (s : t) : t :=
  {| isInitialized := isInitialized s; voiceProfiles := voiceProfiles s;
     synthesisQueue := q; isProcessing := isProcessing s;
     nativeModule := nativeModule s; running := running s;
     settled := settled s; promises := promises s |}.

Definition withProcessing (b : bool) (s : t) : t :=
  {| isInitialized := isInitialized s; voiceProfiles := voiceProfiles s;
     synthesisQueue := synthesisQueue s; isProcessing := b;
     nativeModule := nativeModule s; running := running s;
     settled := settled s; promises := promises s |}.

Definition withRunning (ws : list Worker) (s : t) : t :=
  {| isInitialized := isInitialized s; voiceProfiles := voiceProfiles s;
     synthesisQueue := synthesisQueue s; isProcessing := isProcessing s;
     nativeModule := nativeModule s; running := ws;
     settled := settled s; promises := promises s |}.

Definition withSettled (l : list (nat * Result VoiceCloneResult)) (s : t) : t :=
  {| isInitialized := isInitialized s; voiceProfiles := voiceProfiles s;
     synthesisQueue := synthesisQueue s; isProcessing := isProcessing s;
     nativeModule := nativeModule s; running := running s;
     settled := l; promises := promises s |}.

Definition withPromises (n : nat) (s : t) : t :=
  {| isInitialized := isInitialized s; voiceProfiles := voiceProfiles s;
     synthesisQueue := synthesisQueue s; isProcessing := isProcessing s;
     nativeModule := nativeModule s; running := running s;
     settled := settled s; promises := n |}.

(** [averageEmbeddings] as the service runs it: on binary64; an index past
    the end of an array reads [undefined], which [+=] turns into NaN. *)
Definition averageEmbeddings : list (list float) -> list float :=
  Generic.averageEmbeddings 0%float PrimFloat.add PrimFloat.div lengthAsNumber nan.

Section Service.
Variable narrow : float -> float.

(** [initialize], from its native call on; [modelsDirExists] is what the
    native module finds.  A failed download of the models, a rejected native
    call and a native answer [false] all make [initialize] return [false]
    with the service unchanged. *)
Definition initialize (modelsDirExists : bool) (s : t) : bool * t :=
  if isInitialized s then (true, s)
  else
    match VoiceCloningModule.initializeVoiceCloning modelsDirExists (nativeModule s) with
    | (Ok true, n) => (true, withInitialized true (withNative n s))
    | (Ok false, n) => (false, withNative n s)
    | (Err _, n) => (false, withNative n s)
    end.

(** [createVoiceProfile]; [backend] answers [extractVoiceEmbeddings],
    [clock] is the native clock and [now] is [new Date()].  The
    [try]/[catch] of the source logs and rethrows.  [saveVoiceProfiles]
    writes a copy to disk and swallows its own errors: it changes nothing
    here. *)
Definition createVoiceProfile (backend : Backend) (clock : string) (now : Z)
    (profileName : string) (audioSamples : list string)
    (characteristics : option VoiceCharacteristics) (s : t)
    : Result VoiceProfile * t :=
  if negb (isInitialized s) then
    (Err (JsError "Voice cloning not initialized"), s)
  else
    match forEachAwait (nativeExtractVoiceEmbeddings backend) audioSamples with
    | Err e => (Err e, s)
    | Ok embeddings =>
        let avgEmbeddings := averageEmbeddings embeddings in
        match VoiceCloningModule.createVoiceProfile narrow clock profileName
                audioSamples avgEmbeddings (nativeModule s) with
        | (Err e, n) => (Err e, withNative n s)
        | (Ok (resultProfileId, resultEmbeddings), n) =>
            let voiceProfile :=
              {| id := resultProfileId; name := profileName;
                 audioSamples := audioSamples;
                 embeddings := resultEmbeddings;
                 characteristics := default defaultCharacteristics characteristics;
                 createdAt := now; isActive := false; quality := high |} in
            (Ok voiceProfile,
             withProfiles (<[resultProfileId := voiceProfile]> (voiceProfiles s))
                          (withNative n s))
        end
    end.

(** [deleteVoiceProfile] *)
Definition deleteVoiceProfile (profileId : string) (s : t) : Result unit * t :=
  match VoiceCloningModule.cleanupVoiceProfile profileId (nativeModule s) with
  | (Err e, n) => (Err e, withNative n s)
  | (Ok _, n) =>
      (Ok tt, withProfiles (delete profileId (voiceProfiles s)) (withNative n s))
  end.

(** [setActiveProfile] *)
Definition setActiveProfile (profileId : string) (s : t) : Result unit * t :=
  let deactivated := setIsActive false <$> voiceProfiles s in
  match deactivated !! profileId with
  | Some profile =>
      (Ok tt, withProfiles (<[profileId := setIsActive true profile]> deactivated) s)
  | None => (Ok tt, withProfiles deactivated s)
  end.

(** [getVoiceProfile] *)
Definition getVoiceProfile (profileId : string) (s : t) : option VoiceProfile :=
  voiceProfiles s !! profileId.

(** [compareVoices] *)
Definition compareVoices (profileId1 profileId2 : string) (s : t) : Result float :=
  catch
    (if negb (isInitialized s) then Err (JsError "Voice cloning not initialized")
     else
       result ← VoiceCloningModule.compareVoiceProfiles narrow profileId1 profileId2
                  (nativeModule s);
       Ok result)
    (fun _ => Ok 0%float).

(** [performVoiceSynthesis]; [profile] is the value of
    [this.voiceProfiles.get(profileId)!] read on entry. *)
Definition performVoiceSynthesis (backend : Backend) (profile : option VoiceProfile)
    (text profileId : string) (options : VoiceSynthesisOptions)
    : Result VoiceCloneResult :=
  synthesisResult ← nativeSynthesizeVoice backend text profileId (language options)
                      (emotion <$> optCharacteristics options);
  let finalAudioPath := fst synthesisResult in
  finalAudioPath ←
    match optCharacteristics options with
    | Some c => nativeAdjustVoiceCharacteristics backend finalAudioPath
                  (pitch c) (speed c) (emotion c)
    | None => Ok finalAudioPath
    end;
  finalAudioPath ←
    match optQuality options with
    | Some ultra | Some high => nativeEnhanceAudioQuality backend finalAudioPath
    | _ => Ok finalAudioPath
    end;
  resultCharacteristics ←
    match optCharacteristics options, profile with
    | Some c, _ => Ok c
    | None, Some p => Ok (characteristics p)
    | None, None =>
        Err (TypeError "Cannot read properties of undefined (reading 'characteristics')")
    end;
  Ok {| audioPath := finalAudioPath;
        similarity := 0.95%float;
        duration := snd synthesisResult;
        appliedCharacteristics := resultCharacteristics |}.

(** The body of the [while] loop of [processSynthesisQueue] up to its
    [await], or the [finally] block when the queue is empty. *)
Definition drainStep (s : t) : t :=
  match synthesisQueue s with
  | [] => withProcessing false s
  | request :: rest =>
      withRunning
        (running s ++ [{| request := request;
                          profileAtEntry := voiceProfiles s !! profileId request |}])
        (withQueue rest s)
  end.

(** [processSynthesisQueue], up to its first [await]. *)
Definition processSynthesisQueue (s : t) : t :=
  if isProcessing s || bool_decide (synthesisQueue s = []) then s
  else drainStep (withProcessing true s).

(** [synthesizeVoiceWithCloning], up to the promise it returns: either it
    throws, or it returns the promise whose request it queued. *)
Definition synthesizeVoiceWithCloning (text profileId : string)
    (options : VoiceSynthesisOptions) (s : t) : Result nat * t :=
  if negb (isInitialized s) then (Err (JsError "Voice cloning not initialized"), s)
  else
    match voiceProfiles s !! profileId with
    | None => (Err (JsError ("Voice profile " +:+ profileId +:+ " not found")), s)
    | Some _ =>
        let request := {| text := text; profileId := profileId;
                          options := options; promise := promises s |} in
        let s1 := withPromises (S (promises s))
                    (withQueue (synthesisQueue s ++ [request]) s) in
        (Ok (promise request), processSynthesisQueue s1)
    end.

(** The worker [i] resumes: the [await] of [performVoiceSynthesis] is over,
    with what [backend] answered.  The worker resolves or rejects the
    promise of its request and goes round its loop. *)
Definition resume (i : nat) (backend : Backend) (s : t) : t :=
  match running s !! i with
  | None => s
  | Some w =>
      let r := request w in
      let outcome := performVoiceSynthesis backend (profileAtEntry w)
                       (text r) (profileId r) (options r) in
      drainStep
        (withSettled (settled s ++ [(promise r, outcome)])
           (withRunning (delete i (running s)) s))
  end.

(** [cloneVoiceFromSample]; the optional [characteristics] select the
    adjustment pass. *)
Definition cloneVoiceFromSample (backend : Backend) (sourceAudioPath targetText
    language : string) (characteristics : option VoiceCharacteristics) (s : t)
    : Result VoiceCloneResult :=
  if negb (isInitialized s) then Err (JsError "Voice cloning not initialized")
  else
    cloneResult ← nativeCloneVoiceFromSample backend sourceAudioPath targetText language;
    let finalAudioPath := fst cloneResult in
    finalAudioPath ←
      match characteristics with
      | Some c => nativeAdjustVoiceCharacteristics backend finalAudioPath
                    (pitch c) (speed c) (emotion c)
      | None => Ok finalAudioPath
      end;
    Ok {| audioPath := finalAudioPath;
          similarity := snd cloneResult;
          duration := 0%float;
          appliedCharacteristics := default defaultCharacteristics characteristics |}.

(** The condition [if (profileId)] on an optional string: [undefined] and
    the empty string are falsy. *)
Definition truthy (profileId : option string) : option string :=
  match profileId with
  | Some "" => None
  | other => other
  end.

(** The path [`${RNFS.TemporaryDirectoryPath}/temp_voice_${audioChunk.id}.wav`]. *)
Definition tempVoicePath (TemporaryDirectoryPath : string) (audioChunk : AudioChunk)
    : string :=
  TemporaryDirectoryPath +:+ "/temp_voice_" +:+ chunkId audioChunk +:+ ".wav".

(** [processRealTimeVoiceCloning] on temporary storage.  [queued] is how
    the promise returned by [synthesizeVoiceWithCloning] settles once the
    queue has served it, and [produced] holds the audio files the native
    module has written by then.  [null] is [None]. *)
Definition processRealTimeVoiceCloning (TemporaryDirectoryPath : string)
    (backend : Backend) (queued : Result VoiceCloneResult)
    (produced : gmap string string)
    (audioChunk : AudioChunk) (translatedText targetLanguage : string)
    (profileId : option string) (s : t)
    : RNFS.IO (option (string * float)) :=
  RNFS.try
    (if negb (isInitialized s) then RNFS.ret None
     else
       let tempAudioPath := tempVoicePath TemporaryDirectoryPath audioChunk in
       _ <~ RNFS.writeFile tempAudioPath (chunkData audioChunk) ;;
       result <~
         match truthy profileId with
         | Some profileId =>
             match fst (synthesizeVoiceWithCloning translatedText profileId
                          {| language := targetLanguage;
                             optCharacteristics := None;
                             optQuality := Some medium;
                             realTime := Some true |} s) with
             | Err e => RNFS.lift (Err e)
             | Ok _ => RNFS.native queued produced
             end
         | None =>
             RNFS.native
               (cloneVoiceFromSample backend tempAudioPath translatedText
                  targetLanguage None s)
               produced
         end ;;
       clonedAudioBase64 <~ RNFS.readFile (audioPath result) ;;
       _ <~ RNFS.unlink tempAudioPath ;;
       _ <~ RNFS.unlink (audioPath result) ;;
       RNFS.ret (Some (clonedAudioBase64, similarity result)))
    (fun _ => RNFS.ret None).

(** What can happen to the service, one call or one resumption at a time. *)
Inductive Event : Type :=
  | Initialize (modelsDirExists : bool)
  | CreateVoiceProfile (backend : Backend) (clock : string) (now : Z)
      (profileName : string) (audioSamples : list string)
      (characteristics : option VoiceCharacteristics)
  | DeleteVoiceProfile (profileId : string)
  | SetActiveProfile (profileId : string)
  | SynthesizeVoiceWithCloning (text profileId : string)
      (options : VoiceSynthesisOptions)
  | Resume (i : nat) (backend : Backend).

Definition step (s : t) (e : Event) : t :=
  match e with
  | Initialize ok => snd (initialize ok s)
  | CreateVoiceProfile backend clock now profileName audioSamples cs =>
      snd (createVoiceProfile backend clock now profileName audioSamples cs s)
  | DeleteVoiceProfile profileId => snd (deleteVoiceProfile profileId s)
  | SetActiveProfile profileId => snd (setActiveProfile profileId s)
  | SynthesizeVoiceWithCloning text profileId options =>
      snd (synthesizeVoiceWithCloning text profileId options s)
  | Resume i backend => resume i backend s
  end.

Definition run (s : t) (events : list Event) : t := fold_left step events s.

End Service.
End VoiceCloningService.


(* ===================================================================== *)
(** ** [SeamlessM4TService] (TypeScript) over its native module *)
(* ===================================================================== *)

Module SeamlessM4TService.

Definition SEAMLESS_LANGUAGE_MAP : list (string * string) :=
  [("en", "eng"); ("es", "spa"); ("fr", "fra"); ("de", "deu"); ("it", "ita");
   ("pt", "por"); ("ru", "rus"); ("zh", "cmn"); ("ja", "jpn"); ("ko", "kor");
   ("ar", "arb"); ("hi", "hin"); ("tr", "tur"); ("pl", "pol"); ("nl", "nld");
   ("sv", "swe"); ("da", "dan"); ("no", "nor"); ("fi", "fin"); ("cs", "ces");
   ("hu", "hun"); ("ro", "ron"); ("bg", "bul"); ("hr", "hrv"); ("sk", "slk");
   ("sl", "slv"); ("et", "est"); ("lv", "lav"); ("lt", "lit"); ("mt", "mlt");
   ("ga", "gle"); ("cy", "cym")].

(** The service's [isInitialized] and the native module's [isModelLoaded]. *)
Record t : Type := {
  isInitialized : bool;
  isModelLoaded : bool
}.

(** What the model answers to a speech-to-speech request once it is loaded:
    the translated audio path and the translated text. *)
Definition Model : Type := string -> JsValue -> JsValue -> Result (string * string).

(** [mapLanguageCode] *)
Definition mapLanguageCode (languageCode : string) : JsValue :=
  default (VString languageCode) (readProperty SEAMLESS_LANGUAGE_MAP languageCode).

(** [isReady] *)
Definition isReady (s : t) : bool :=
  if negb (isInitialized s) then false else isModelLoaded s.

(** The native [translateSpeechToSpeech] *)
Definition nativeTranslateSpeechToSpeech (model : Model) (audioPath : string)
    (sourceLang targetLang : JsValue) (s : t) : Result (string * string) :=
  if negb (isModelLoaded s) then Err (NativeReject "MODEL_NOT_LOADED" "Model not loaded")
  else model audioPath sourceLang targetLang.

(** [translateSpeechToSpeech]; [now] is [new Date()]. *)
Definition translateSpeechToSpeech (model : Model) (now : Z) (audioPath
    sourceLanguage targetLanguage : string) (s : t)
    : Result (string * TranslationResult) :=
  if negb (isInitialized s) then Err (JsError "SeamlessM4T not initialized")
  else
    let sourceLang := mapLanguageCode sourceLanguage in
    let targetLang := mapLanguageCode targetLanguage in
    result ← nativeTranslateSpeechToSpeech model audioPath sourceLang targetLang s;
    let translationResult :=
      {| originalText := "";
         translatedText := VString (snd result);
         sourceLanguage := sourceLanguage;
         targetLanguage := targetLanguage;
         confidence := 0.95%float;
         timestamp := now |} in
    Ok (fst result, translationResult).

(** The path [`${RNFS.TemporaryDirectoryPath}/temp_audio_${audioChunk.id}.wav`]. *)
Definition tempAudioPath (TemporaryDirectoryPath : string) (audioChunk : AudioChunk)
    : string :=
  TemporaryDirectoryPath +:+ "/temp_audio_" +:+ chunkId audioChunk +:+ ".wav".

(** [processRealTimeAudio] on temporary storage; [produced] holds the audio
    files the native module has written when its call returns.  [null] is
    [None]. *)
Definition processRealTimeAudio (TemporaryDirectoryPath : string) (model : Model)
    (produced : gmap string string) (now : Z)
    (audioChunk : AudioChunk) (sourceLanguage targetLanguage : string) (s : t)
    : RNFS.IO (option (string * TranslationResult)) :=
  RNFS.try
    (let tempAudioPath := tempAudioPath TemporaryDirectoryPath audioChunk in
     _ <~ RNFS.writeFile tempAudioPath (chunkData audioChunk) ;;
     result <~ RNFS.native
                 (translateSpeechToSpeech model now tempAudioPath sourceLanguage
                    targetLanguage s)
                 produced ;;
     _ <~ RNFS.unlink tempAudioPath ;;
     translatedAudioBase64 <~ RNFS.readFile (fst result) ;;
     RNFS.ret (Some (translatedAudioBase64, snd result)))
    (fun _ => RNFS.ret None).

End SeamlessM4TService.

(* ===================================================================== *)
(** ** [TranslationService] (TypeScript) *)
(* ===================================================================== *)

Module TranslationService.
Section Service.
(** [String.prototype.toLowerCase] *)
Variable toLowerCase : string -> string.

(** The table [mockTranslations] of [translateWithGoogle]. *)
Definition mockTranslations : list (string * string) :=
  [("hello", "hola"); ("goodbye", "adiós"); ("thank you", "gracias");
   ("how are you", "cómo estás"); ("good morning", "buenos días")].

(** [translateWithGoogle]; [now] is [new Date()]. *)
Definition translateWithGoogle (now : Z) (text sourceLanguage targetLanguage : string)
    : Result TranslationResult :=
  let translatedText :=
    default (VString ("[Translated: " +:+ text +:+ "]"))
            (readProperty mockTranslations (toLowerCase text)) in
  Ok {| originalText := text;
        translatedText := translatedText;
        sourceLanguage := sourceLanguage;
        targetLanguage := targetLanguage;
        confidence := 0.85%float;
        timestamp := now |}.

(** [translateText]; [openAI] is how [translateWithOpenAI] settles: with
    the trimmed text of the completion, or with the failure of the request
    or of reading the response. *)
Definition translateText (openAI : Result string) (now : Z)
    (text sourceLanguage targetLanguage : string) : Result TranslationResult :=
  catch
    (translatedText ← openAI;
     Ok {| originalText := text;
           translatedText := VString translatedText;
           sourceLanguage := sourceLanguage;
           targetLanguage := targetLanguage;
           confidence := 0.95%float;
           timestamp := now |})
    (fun _ => translateWithGoogle now text sourceLanguage targetLanguage).

End Service.

(** [toLowerCase] on the letters A to Z; other characters are kept. *)
Definition lowerAscii (c : Ascii.ascii) : Ascii.ascii :=
  let n := Ascii.nat_of_ascii c in
  if (65 <=? n)%nat && (n <=? 90)%nat then Ascii.ascii_of_nat (n + 32) else c.

Fixpoint toLowerCaseAscii (s : string) : string :=
  match s with
  | EmptyString => EmptyString
  | String c rest => String (lowerAscii c) (toLowerCaseAscii rest)
  end.

End TranslationService.

(* ===================================================================== *)
(** ** [VoiceService] (TypeScript): voice translation entry points *)
(* ===================================================================== *)

Module VoiceService.

(** The field [useNativeProcessing], set once by the constructor. *)
Record t : Type := {
  useNativeProcessing : bool
}.

(** What [translateVoice] resolves with.  On the native path the field
    [translationResult] holds a [TranslationResult]; on the API path
    [translateVoiceWithAPI] stores there the whole answer of
    [SeamlessM4TService.translateSpeechToSpeech]. *)
Inductive VoiceTranslation : Type :=
  | Translated (translatedAudioPath : string) (translationResult : TranslationResult)
  | Wrapped (translatedAudioPath : string)
      (translationResult : string * TranslationResult).

(** [translateVoiceWithAPI]; [stamp] is the decimal text of [Date.now()]. *)
Definition translateVoiceWithAPI (DocumentDirectoryPath stamp : string)
    (model : SeamlessM4TService.Model) (produced : gmap string string) (now : Z)
    (audioPath sourceLanguage targetLanguage : string) (m : SeamlessM4TService.t)
    : RNFS.IO VoiceTranslation :=
  let translatedAudioPath :=
    DocumentDirectoryPath +:+ "/translated_" +:+ stamp +:+ ".m4a" in
  translationResult <~
    RNFS.native (SeamlessM4TService.translateSpeechToSpeech model now audioPath
                   sourceLanguage targetLanguage m) produced ;;
  _ <~ RNFS.copyFile audioPath translatedAudioPath ;;
  RNFS.ret (Wrapped translatedAudioPath translationResult).

(** [translateVoice] *)
Definition translateVoice (DocumentDirectoryPath stamp : string)
    (model : SeamlessM4TService.Model) (produced : gmap string string) (now : Z)
    (audioPath sourceLanguage targetLanguage : string)
    (s : t) (m : SeamlessM4TService.t) : RNFS.IO VoiceTranslation :=
  if useNativeProcessing s && SeamlessM4TService.isReady m then
    result <~
      RNFS.native (SeamlessM4TService.translateSpeechToSpeech model now audioPath
                     sourceLanguage targetLanguage m) produced ;;
    RNFS.ret (Translated (fst result) (snd result))
  else
    translateVoiceWithAPI DocumentDirectoryPath stamp model produced now audioPath
      sourceLanguage targetLanguage m.

End VoiceService.

(* ===================================================================== *)
(** ** [CallScreen]: the periodic capture loop *)
(* ===================================================================== *)

Module CallScreen.

(** The constants one render of the component binds with [useState], as
    far as the loop reads them.  Every function the component body defines
    during that render ([startTranslation], [toggleTranslation], the
    callbacks they create) closes over these values. *)
Record Render : Type := {
  isRecording : bool;
  isTranslating : bool
}.

(** The state cells of the mounted component, the interval held by
    [translationTimer] (with the render whose [startTranslation] created
    its callback), and three counters of the model: cycles started and not
    yet through their [finally], calls of [VoiceService.startRecording],
    cycles that finished. *)
Record t : Type := {
  isRecordingCell : bool;
  isTranslatingCell : bool;
  translationTimer : option Render;
  cyclesInFlight : nat;
  captureStarts : nat;
  cyclesCompleted : nat
}.

(** The component after its first render. *)
Definition mounted : t :=
  {| isRecordingCell := false; isTranslatingCell := false;
     translationTimer := None;
     cyclesInFlight := 0; captureStarts := 0; cyclesCompleted := 0 |}.

(** The render of the current state. *)
Definition render (s : t) : Render :=
  {| isRecording := isRecordingCell s; isTranslating := isTranslatingCell s |}.

(** The first render: [useState(false)] for both cells. *)
Definition firstRender : Render := render mounted.

(** [startTranslation] as defined by the render [r]: [setIsTranslating(true)]
    and [setInterval] of a callback that closes over [r]. *)
Definition startTranslation (r : Render) (s : t) : t :=
  {| isRecordingCell := isRecordingCell s; isTranslatingCell := true;
     translationTimer := Some r;
     cyclesInFlight := cyclesInFlight s; captureStarts := captureStarts s;
     cyclesCompleted := cyclesCompleted s |}.

(** [stopTranslation]: [setIsTranslating(false)] and [clearInterval]. *)
Definition stopTranslation (s : t) : t :=
  {| isRecordingCell := isRecordingCell s; isTranslatingCell := false;
     translationTimer := None;
     cyclesInFlight := cyclesInFlight s; captureStarts := captureStarts s;
     cyclesCompleted := cyclesCompleted s |}.

(** [toggleTranslation] as defined by the render [r]. *)
Definition toggleTranslation (r : Render) (s : t) : t :=
  if isTranslating r then stopTranslation s else startTranslation r s.

(** The interval callback created by the [startTranslation] of render [r],
    up to the [setTimeout] it installs: the guard [if (isRecording) return]
    reads the constant of [r]; then [setIsRecording(true)] and
    [VoiceService.startRecording()].  [recorderStarts] tells whether that
    call resolves; when it rejects, the [catch] runs [setIsRecording(false)]
    and no cycle follows. *)
Definition tick (r : Render) (recorderStarts : bool) (s : t) : t :=
  if isRecording r then s
  else if recorderStarts then
    {| isRecordingCell := true; isTranslatingCell := isTranslatingCell s;
       translationTimer := translationTimer s;
       cyclesInFlight := S (cyclesInFlight s);
       captureStarts := S (captureStarts s);
       cyclesCompleted := cyclesCompleted s |}
  else
    {| isRecordingCell := false; isTranslatingCell := isTranslatingCell s;
       translationTimer := translationTimer s;
       cyclesInFlight := cyclesInFlight s;
       captureStarts := S (captureStarts s);
       cyclesCompleted := cyclesCompleted s |}.

(** The [finally] of the [setTimeout] callback of a cycle: the recording
    was stopped, translated and spoken (or one of these failed), and
    [setIsRecording(false)] runs. *)
Definition cycleEnd (s : t) : t :=
  match cyclesInFlight s with
  | O => s
  | S n =>
      {| isRecordingCell := false; isTranslatingCell := isTranslatingCell s;
         translationTimer := translationTimer s;
         cyclesInFlight := n; captureStarts := captureStarts s;
         cyclesCompleted := S (cyclesCompleted s) |}
  end.

Inductive Event : Type :=
  | Connected            (* the mount effect's timeout, translation enabled *)
  | TogglePressed        (* the translation button of the current render *)
  | TimerFires (recorderStarts : bool)   (* the 5 s interval *)
  | CycleEnds.           (* a cycle reaches its [finally] *)

Definition step (s : t) (e : Event) : t :=
  match e with
  | Connected => startTranslation firstRender s
  | TogglePressed => toggleTranslation (render s) s
  | TimerFires recorderStarts =>
      match translationTimer s with
      | Some r => tick r recorderStarts s
      | None => s
      end
  | CycleEnds => cycleEnd s
  end.

Definition run (s : t) (events : list Event) : t := fold_left step events s.

End CallScreen.

(* ===================================================================== *)
(** ** Concrete inputs used by the examples below *)
(* ===================================================================== *)

Module Examples.

(** The iOS module: no narrowing. *)
Definition keep (x : float) : float := x.

Definition unavailable {A : Type} : Result A :=
  Err (NativeReject "MODEL_NOT_LOADED" "model not loaded").

(** A backend whose speaker encoder answers [[1,0]] for [a.wav], [[0,1]]
    for [b.wav], [[1,2]] for [long.wav], [[3]] for [short.wav] and [[3,4]]
    for [c.wav]; the synthesizer renders [text] to [/out/<text>.wav] in
    2 seconds, except the text [boom], which it rejects. *)
Definition backend : Backend :=
  {| nativeExtractVoiceEmbeddings := fun audioPath =>
       if bool_decide (audioPath = "a.wav") then Ok [1%float; 0%float]
       else if bool_decide (audioPath = "b.wav") then Ok [0%float; 1%float]
       else if bool_decide (audioPath = "long.wav") then Ok [1%float; 2%float]
       else if bool_decide (audioPath = "short.wav") then Ok [3%float]
       else if bool_decide (audioPath = "c.wav") then Ok [3%float; 4%float]
       else Err (NativeReject "AUDIO_LOAD_FAILED" "Failed to load audio file");
     nativeSynthesizeVoice := fun text _ _ _ =>
       if bool_decide (text = "boom")
       then Err (NativeReject "SYNTHESIS_FAILED" "Failed to synthesize voice")
       else Ok ("/out/" +:+ text +:+ ".wav", 2%float);
     nativeAdjustVoiceCharacteristics := fun audioPath _ _ _ => Ok audioPath;
     nativeEnhanceAudioQuality := fun audioPath => Ok audioPath;
     nativeCloneVoiceFromSample := fun _ _ _ => unavailable |}.

(** The service after a successful [initialize]. *)
Definition ready : VoiceCloningService.t :=
  VoiceCloningService.run keep VoiceCloningService.initial
    [VoiceCloningService.Initialize true].

(** The service with one profile, created from [a.wav] and made active. *)
Definition oneActive : VoiceCloningService.t :=
  VoiceCloningService.run keep ready
    [VoiceCloningService.CreateVoiceProfile backend "1" 0 "P" ["a.wav"] None;
     VoiceCloningService.SetActiveProfile "profile_1"].

(** The service with one profile created from no sample at all. *)
Definition oneEmpty : VoiceCloningService.t :=
  VoiceCloningService.run keep ready
    [VoiceCloningService.CreateVoiceProfile backend "1" 0 "P" [] None].

(** The service with one profile created from [c.wav]. *)
Definition oneProfile : VoiceCloningService.t :=
  VoiceCloningService.run keep ready
    [VoiceCloningService.CreateVoiceProfile backend "1" 0 "P" ["c.wav"] None].

(** The service with two profiles, the first one active. *)
Definition twoProfiles : VoiceCloningService.t :=
  VoiceCloningService.run keep ready
    [VoiceCloningService.CreateVoiceProfile backend "1" 0 "P" ["a.wav"] None;
     VoiceCloningService.CreateVoiceProfile backend "2" 0 "Q" ["b.wav"] None;
     VoiceCloningService.SetActiveProfile "profile_1"].

Definition plainOptions : VoiceSynthesisOptions :=
  {| language := "es"; optCharacteristics := None; optQuality := None;
     realTime := None |}.

(** Three requests submitted in a row for the stored profile; the
    synthesizer will reject the second one. *)
Definition threeRequests : list VoiceCloningService.Event :=
  [VoiceCloningService.Initialize true;
   VoiceCloningService.CreateVoiceProfile backend "1" 0 "P" ["c.wav"] None;
   VoiceCloningService.SynthesizeVoiceWithCloning "one" "profile_1" plainOptions;
   VoiceCloningService.SynthesizeVoiceWithCloning "boom" "profile_1" plainOptions;
   VoiceCloningService.SynthesizeVoiceWithCloning "three" "profile_1" plainOptions].

Definition chunk : AudioChunk :=
  {| chunkId := "c1"; chunkData := "UklGRg=="; chunkTimestamp := 0;
     chunkDuration := 3%float |}.

(** A translation model that answers [hola] and renders [/out/es.wav]. *)
Definition model : SeamlessM4TService.Model :=
  fun _ _ _ => Ok ("/out/es.wav", "hola").

Definition rendered : gmap string string := {["/out/es.wav" := "T2dnUw=="]}.

End Examples.

(* ===================================================================== *)
(** ** Vocabulary of the statements *)
(* ===================================================================== *)

(** The mean and the columns on binary64, as [averageEmbeddings] of the
    service uses them. *)
Abbreviation meanF := (Generic.mean 0%float PrimFloat.add PrimFloat.div lengthAsNumber).
Abbreviation columnF := (Generic.column nan).

(** At most one stored profile has [isActive = true]. *)
Definition atMostOneActive (m : gmap string VoiceProfile) : Prop :=
  forall i j p q,
    m !! i = Some p -> m !! j = Some q ->
    isActive p = true -> isActive q = true -> i = j.

(** The cosine similarity as the native module evaluates it. *)
Abbreviation cosineF narrow :=
  (Generic.cosine 0%float PrimFloat.add (fun x y => narrow (PrimFloat.mul x y))
     PrimFloat.div PrimFloat.sqrt).

(** The same loop over the real numbers. *)
Abbreviation calculateCosineSimilarityR :=
  (Generic.calculateCosineSimilarity 0%R Rplus Rmult Rdiv R_sqrt.sqrt).

(** The promise a suspended worker will settle. *)
Definition promiseOf (w : VoiceCloningService.Worker) : nat :=
  VoiceCloningService.promise (VoiceCloningService.request w).

(** The worker a queued request becomes when it is shifted in state [s]. *)
Definition workerFor (s : VoiceCloningService.t) (r : VoiceCloningService.Request)
    : VoiceCloningService.Worker :=
  {| VoiceCloningService.request := r;
     VoiceCloningService.profileAtEntry :=
       VoiceCloningService.voiceProfiles s !! VoiceCloningService.profileId r |}.

(** The requests not settled yet, in the order they will be served: the
    one in flight, then the queue. *)
Definition pending (s : VoiceCloningService.t) : list VoiceCloningService.Worker :=
  VoiceCloningService.running s
  ++ map (workerFor s) (VoiceCloningService.synthesisQueue s).

(** How a request settles when [backend] answers its synthesis. *)
Definition serve (backend : Backend) (w : VoiceCloningService.Worker)
    : nat * Result VoiceCloneResult :=
  let r := VoiceCloningService.request w in
  (VoiceCloningService.promise r,
   VoiceCloningService.performVoiceSynthesis backend
     (VoiceCloningService.profileAtEntry w) (VoiceCloningService.text r)
     (VoiceCloningService.profileId r) (VoiceCloningService.options r)).

(** The invariant of the queue: at most one worker is suspended in a
    synthesis; [isProcessing] is set exactly while there is one; requests
    wait only while one is served; and the promises settled, in flight and
    queued are, in this order, the promises created, in creation order. *)
Definition queueInvariant (s : VoiceCloningService.t) : Prop :=
  (length (VoiceCloningService.running s) <= 1)%nat /\
  (VoiceCloningService.isProcessing s = true <-> VoiceCloningService.running s <> []) /\
  (VoiceCloningService.running s = [] -> VoiceCloningService.synthesisQueue s = []) /\
  map fst (VoiceCloningService.settled s)
    ++ map promiseOf (VoiceCloningService.running s)
    ++ map VoiceCloningService.promise (VoiceCloningService.synthesisQueue s)
  = seq 0 (VoiceCloningService.promises s).

(** The events that are not about synthesis leave the queue alone. *)
Definition sameQueue (s s' : VoiceCloningService.t) : Prop :=
  VoiceCloningService.synthesisQueue s' = VoiceCloningService.synthesisQueue s /\
  VoiceCloningService.isProcessing s' = VoiceCloningService.isProcessing s /\
  VoiceCloningService.running s' = VoiceCloningService.running s /\
  VoiceCloningService.settled s' = VoiceCloningService.settled s /\
  VoiceCloningService.promises s' = VoiceCloningService.promises s.

(** A settled promise that, if resolved, reports similarity 0.95. *)
Definition reportsConstant (entry : nat * Result VoiceCloneResult) : Prop :=
  forall r, snd entry = Ok r -> similarity r = 0.95%float.

(* ===================================================================== *)
(** * Properties *)
(* ===================================================================== *)

(** ** The numeric kernels *)

Section KernelFacts.
Context {T : Type}.
Variables (zero : T) (add mul div : T -> T -> T) (sqrt : T -> T).
Variables (ofLength : nat -> T) (undef : T).

Local Abbreviation addInto := (Generic.addInto add undef).
Local Abbreviation column := (Generic.column undef).

Lemma addInto_length (acc e : list T) : length (addInto acc e) = length acc.
Proof.
  revert e. induction acc as [|a acc IH]; intros e; simpl; [reflexivity|].
  now rewrite IH.
Qed.

Lemma nth_tl (i : nat) (e : list T) : nth i (tl e) undef = nth (S i) e undef.
Proof. destruct e; simpl; [now destruct i | reflexivity]. Qed.

Lemma addInto_nth (i : nat) (acc e : list T) (d : T) :
  (i < length acc)%nat ->
  nth i (addInto acc e) d = add (nth i acc d) (nth i e undef).
Proof.
  revert i e. induction acc as [|a acc IH]; intros i e Hi; simpl in *; [lia|].
  destruct i as [|i].
  - now destruct e.
  - rewrite IH by lia. now rewrite nth_tl.
Qed.

Lemma fold_addInto_length (embeddings : list (list T)) (acc : list T) :
  length (fold_left addInto embeddings acc) = length acc.
Proof.
  revert acc. induction embeddings as [|e es IH]; intros acc; simpl; [reflexivity|].
  now rewrite IH, addInto_length.
Qed.

(** The nested loops of [averageEmbeddings] add up each column separately. *)
Lemma fold_addInto_nth (i : nat) (embeddings : list (list T)) (acc : list T) (d : T) :
  (i < length acc)%nat ->
  nth i (fold_left addInto embeddings acc) d
  = fold_left add (column i embeddings) (nth i acc d).
Proof.
  revert acc. induction embeddings as [|e es IH]; intros acc Hi; simpl; [reflexivity|].
  rewrite IH by now rewrite addInto_length.
  now rewrite addInto_nth.
Qed.

Lemma averageEmbeddings_length (first : list T) (others : list (list T)) :
  length (Generic.averageEmbeddings zero add div ofLength undef (first :: others))
  = length first.
Proof.
  unfold Generic.averageEmbeddings.
  now rewrite length_map, fold_addInto_length, repeat_length.
Qed.

Lemma averageEmbeddings_nth (first : list T) (others : list (list T)) (i : nat) :
  (i < length first)%nat ->
  nth_error (Generic.averageEmbeddings zero add div ofLength undef (first :: others)) i
  = Some (Generic.mean zero add div ofLength (column i (first :: others))).
Proof.
  intros Hi. unfold Generic.averageEmbeddings.
  rewrite nth_error_map.
  assert (Hlen : (i < length (fold_left addInto (first :: others)
                                (repeat zero (length first))))%nat)
    by now rewrite fold_addInto_length, repeat_length.
  rewrite (nth_error_nth' _ zero Hlen). cbn [option_map].
  rewrite (fold_addInto_nth i (first :: others) (repeat zero (length first)) zero)
    by now rewrite repeat_length.
  rewrite nth_repeat.
  unfold Generic.mean, Generic.total, Generic.column.
  now rewrite length_map.
Qed.

(** The three accumulators of the similarity loop, one by one. *)
Lemma fold_cosineStep (pairs : list (T * T)) (d n1 n2 : T) :
  fold_left (Generic.cosineStep add mul) pairs (d, n1, n2)
  = (fold_left add (map (fun xy => mul (fst xy) (snd xy)) pairs) d,
     fold_left add (map (fun xy => mul (fst xy) (fst xy)) pairs) n1,
     fold_left add (map (fun xy => mul (snd xy) (snd xy)) pairs) n2).
Proof.
  revert d n1 n2. induction pairs as [|[x y] pairs IH]; intros d n1 n2; simpl;
    [reflexivity|].
  now rewrite IH.
Qed.

Lemma squares_left (a b : list T) :
  length a = length b ->
  map (fun xy => mul (fst xy) (fst xy)) (combine a b)
  = map (fun xy => mul (fst xy) (snd xy)) (combine a a).
Proof.
  revert b. induction a as [|x a IH]; intros [|y b] Hlen; simpl in *;
    try reflexivity; try discriminate.
  f_equal. apply IH. lia.
Qed.

Lemma squares_right (a b : list T) :
  length a = length b ->
  map (fun xy => mul (snd xy) (snd xy)) (combine a b)
  = map (fun xy => mul (fst xy) (snd xy)) (combine b b).
Proof.
  revert b. induction a as [|x a IH]; intros [|y b] Hlen; simpl in *;
    try reflexivity; try discriminate.
  f_equal. apply IH. lia.
Qed.

(** On vectors of one length the loop computes
    [dot(a,b) / (sqrt(dot(a,a)) * sqrt(dot(b,b)))]. *)
Lemma calculateCosineSimilarity_same_length (a b : list T) :
  length a = length b ->
  Generic.calculateCosineSimilarity zero add mul div sqrt a b
  = Generic.cosine zero add mul div sqrt a b.
Proof.
  intros Hlen. unfold Generic.calculateCosineSimilarity.
  rewrite Hlen, Nat.eqb_refl. simpl negb. cbv iota.
  rewrite fold_cosineStep.
  unfold Generic.cosine, Generic.dot, Generic.total.
  now rewrite (squares_left a b Hlen), (squares_right a b Hlen).
Qed.

(** On vectors of different lengths the result is the literal [0.0]. *)
Lemma calculateCosineSimilarity_length_mismatch (a b : list T) :
  length a <> length b ->
  Generic.calculateCosineSimilarity zero add mul div sqrt a b = zero.
Proof.
  intros Hlen. unfold Generic.calculateCosineSimilarity.
  now apply Nat.eqb_neq in Hlen as ->.
Qed.

End KernelFacts.

(** ** Profile creation *)

Lemma forEachAwait_length {A B : Type} (f : A -> Result B) (xs : list A) (ys : list B) :
  forEachAwait f xs = Ok ys -> length ys = length xs.
Proof.
  revert ys. induction xs as [|x xs IH]; intros ys; simpl.
  - now intros [= <-].
  - destruct (f x) as [y|e]; simpl; [|discriminate].
    destruct (forEachAwait f xs) as [ys'|e]; simpl; [|discriminate].
    intros [= <-]. simpl. now rewrite (IH ys').
Qed.

(** What a successful [createVoiceProfile] returns and stores. *)
Lemma createVoiceProfile_ok (narrow : float -> float) (backend : Backend)
    (clock : string) (now : Z) (profileName : string) (audioSamples : list string)
    (cs : option VoiceCharacteristics) (s : VoiceCloningService.t)
    (profile : VoiceProfile) :
  fst (VoiceCloningService.createVoiceProfile narrow backend clock now profileName
         audioSamples cs s) = Ok profile ->
  exists extracted,
    forEachAwait (nativeExtractVoiceEmbeddings backend) audioSamples = Ok extracted /\
    embeddings profile = map narrow (VoiceCloningService.averageEmbeddings extracted) /\
    id profile = "profile_" +:+ clock /\
    isActive profile = false /\
    VoiceCloningService.voiceProfiles
      (snd (VoiceCloningService.createVoiceProfile narrow backend clock now
              profileName audioSamples cs s))
    = <[id profile := profile]> (VoiceCloningService.voiceProfiles s).
Proof.
  unfold VoiceCloningService.createVoiceProfile.
  destruct (VoiceCloningService.isInitialized s); simpl; [|discriminate].
  destruct (forEachAwait _ audioSamples) as [extracted|e]; simpl; [|discriminate].
  unfold VoiceCloningModule.createVoiceProfile.
  destruct (VoiceCloningModule.isInitialized _); simpl; [|discriminate].
  intros [= <-]. exists extracted. simpl. auto.
Qed.

(** With the service and the native module initialized and an embedding
    extracted for every sample, [createVoiceProfile] resolves. *)
Lemma createVoiceProfile_resolves (narrow : float -> float) (backend : Backend)
    (clock : string) (now : Z) (profileName : string) (audioSamples : list string)
    (cs : option VoiceCharacteristics) (s : VoiceCloningService.t)
    (extracted : list (list float)) :
  VoiceCloningService.isInitialized s = true ->
  VoiceCloningModule.isInitialized (VoiceCloningService.nativeModule s) = true ->
  forEachAwait (nativeExtractVoiceEmbeddings backend) audioSamples = Ok extracted ->
  exists profile,
    fst (VoiceCloningService.createVoiceProfile narrow backend clock now profileName
           audioSamples cs s) = Ok profile.
Proof.
  intros Hinit Hnative Hextract.
  unfold VoiceCloningService.createVoiceProfile.
  rewrite Hinit, Hextract. simpl.
  unfold VoiceCloningModule.createVoiceProfile. rewrite Hnative. simpl.
  eexists. reflexivity.
Qed.

(** C2: with the service initialized, creating a profile from N >= 1
    samples whose embeddings are extracted succeeds, and the profile
    returned and stored holds, at every index of the first sample's
    embedding, the mean of that component over the N extracted embeddings:
    their sum in sample order divided by N, computed in binary64 and then
    passed through the native module's narrowing. *)
Theorem createVoiceProfile_embedding_is_mean (narrow : float -> float)
    (backend : Backend) (clock : string) (now : Z) (profileName : string)
    (audioSamples : list string) (cs : option VoiceCharacteristics)
    (s : VoiceCloningService.t)
    (first : list float) (others : list (list float)) :
  VoiceCloningService.isInitialized s = true ->
  VoiceCloningModule.isInitialized (VoiceCloningService.nativeModule s) = true ->
  forEachAwait (nativeExtractVoiceEmbeddings backend) audioSamples
    = Ok (first :: others) ->
  exists profile,
    fst (VoiceCloningService.createVoiceProfile narrow backend clock now profileName
           audioSamples cs s) = Ok profile /\
    length (first :: others) = length audioSamples /\
    VoiceCloningService.voiceProfiles
      (snd (VoiceCloningService.createVoiceProfile narrow backend clock now
              profileName audioSamples cs s)) !! id profile = Some profile /\
    length (embeddings profile) = length first /\
    forall i, (i < length first)%nat ->
      nth_error (embeddings profile) i
      = Some (narrow (meanF (columnF i (first :: others)))).
Proof.
  intros Hinit Hnative Hextract.
  destruct (createVoiceProfile_resolves narrow backend clock now profileName
              audioSamples cs s _ Hinit Hnative Hextract) as [profile Hcreate].
  exists profile. split; [exact Hcreate|].
  destruct (createVoiceProfile_ok _ _ _ _ _ _ _ _ _ Hcreate)
    as (extracted & Hex & Hemb & _ & _ & Hstore).
  rewrite Hextract in Hex. injection Hex as <-.
  split; [exact (forEachAwait_length _ _ _ Hextract)|].
  split; [rewrite Hstore; apply lookup_insert_eq|].
  rewrite Hemb. split.
  - rewrite length_map. apply averageEmbeddings_length.
  - intros i Hi. rewrite nth_error_map.
    unfold VoiceCloningService.averageEmbeddings.
    now rewrite averageEmbeddings_nth.
Qed.

Lemma createVoiceProfile_embedding_is_mean_witness :
  VoiceCloningService.isInitialized Examples.ready = true /\
  forEachAwait (nativeExtractVoiceEmbeddings Examples.backend) ["a.wav"; "b.wav"]
    = Ok [[1%float; 0%float]; [0%float; 1%float]] /\
  exists profile,
    fst (VoiceCloningService.createVoiceProfile Examples.keep Examples.backend
           "1" 0 "P" ["a.wav"; "b.wav"] None Examples.ready) = Ok profile /\
    embeddings profile = [0.5%float; 0.5%float].
Proof.
  split; [reflexivity|]. split; [vm_compute; reflexivity|].
  destruct (createVoiceProfile_embedding_is_mean Examples.keep Examples.backend
              "1" 0 "P" ["a.wav"; "b.wav"] None Examples.ready
              [1%float; 0%float] [[0%float; 1%float]])
    as (profile & Hcreate & _ & _ & Hlen & Hmean);
    [reflexivity | reflexivity | vm_compute; reflexivity |].
  exists profile. split; [exact Hcreate|].
  pose proof (Hmean 0%nat ltac:(simpl; lia)) as H0.
  pose proof (Hmean 1%nat ltac:(simpl; lia)) as H1.
  destruct (embeddings profile) as [|x [|y [|z rest]]]; try discriminate.
  simpl in H0, H1. injection H0 as ->. injection H1 as ->.
  vm_compute. reflexivity.
Defined.

(** C8 as stated fails: two samples whose embeddings have lengths 2 and 1
    yield a profile (with a NaN component), and so does an empty sample
    list (with an empty embedding); no error is raised. *)
Lemma createVoiceProfile_accepts_mismatched_lengths :
  forEachAwait (nativeExtractVoiceEmbeddings Examples.backend)
    ["long.wav"; "short.wav"] = Ok [[1%float; 2%float]; [3%float]] /\
  (exists profile,
     fst (VoiceCloningService.createVoiceProfile Examples.keep Examples.backend
            "1" 0 "P" ["long.wav"; "short.wav"] None Examples.ready) = Ok profile /\
     embeddings profile = [2%float; nan]) /\
  (exists profile,
     fst (VoiceCloningService.createVoiceProfile Examples.keep Examples.backend
            "1" 0 "P" [] None Examples.ready) = Ok profile /\
     embeddings profile = []).
Proof.
  split; [vm_compute; reflexivity|].
  split; eexists; split; vm_compute; reflexivity.
Qed.

(** C8, amended: [createVoiceProfile] takes any number of samples, none
    included, and compares no vector lengths.  Once the service and the
    native module are initialized and every sample yields an embedding,
    creation succeeds, and the stored vector has the length of the first
    sample's embedding (it is empty when there is no sample). *)
Theorem createVoiceProfile_has_no_length_check (narrow : float -> float)
    (backend : Backend) (clock : string) (now : Z) (profileName : string)
    (audioSamples : list string) (cs : option VoiceCharacteristics)
    (s : VoiceCloningService.t) (extracted : list (list float)) :
  VoiceCloningService.isInitialized s = true ->
  VoiceCloningModule.isInitialized (VoiceCloningService.nativeModule s) = true ->
  forEachAwait (nativeExtractVoiceEmbeddings backend) audioSamples = Ok extracted ->
  exists profile,
    fst (VoiceCloningService.createVoiceProfile narrow backend clock now profileName
           audioSamples cs s) = Ok profile /\
    length (embeddings profile) = length (hd [] extracted).
Proof.
  intros Hinit Hnative Hextract.
  destruct (createVoiceProfile_resolves narrow backend clock now profileName
              audioSamples cs s _ Hinit Hnative Hextract) as [profile Hcreate].
  exists profile. split; [exact Hcreate|].
  destruct (createVoiceProfile_ok _ _ _ _ _ _ _ _ _ Hcreate)
    as (extracted' & Hex & Hemb & _).
  rewrite Hextract in Hex. injection Hex as <-.
  rewrite Hemb, length_map.
  destruct extracted as [|first others]; [reflexivity|].
  apply averageEmbeddings_length.
Qed.

Lemma createVoiceProfile_has_no_length_check_witness :
  VoiceCloningService.isInitialized Examples.ready = true /\
  VoiceCloningModule.isInitialized
    (VoiceCloningService.nativeModule Examples.ready) = true /\
  exists profile,
    fst (VoiceCloningService.createVoiceProfile Examples.keep Examples.backend
           "1" 0 "P" ["long.wav"; "short.wav"] None Examples.ready) = Ok profile /\
    length (embeddings profile) = length (hd [] [[1%float; 2%float]; [3%float]]).
Proof.
  split; [reflexivity|]. split; [reflexivity|].
  apply (createVoiceProfile_has_no_length_check Examples.keep Examples.backend
           "1" 0 "P" ["long.wav"; "short.wav"] None Examples.ready
           [[1%float; 2%float]; [3%float]]);
    vm_compute; reflexivity.
Defined.

(** ** The active profile *)

Lemma atMostOneActive_empty : atMostOneActive ∅.
Proof. intros i j p q Hi. now rewrite lookup_empty in Hi. Qed.

Lemma atMostOneActive_insert_inactive (m : gmap string VoiceProfile) (k : string)
    (p : VoiceProfile) :
  isActive p = false -> atMostOneActive m -> atMostOneActive (<[k := p]> m).
Proof.
  intros Hp Hm i j a b Hi Hj Ha Hb.
  destruct (decide (k = i)) as [->|Hki].
  - rewrite lookup_insert_eq in Hi. injection Hi as <-. congruence.
  - rewrite lookup_insert_ne in Hi by assumption.
    destruct (decide (k = j)) as [->|Hkj].
    + rewrite lookup_insert_eq in Hj. injection Hj as <-. congruence.
    + rewrite lookup_insert_ne in Hj by assumption. eauto.
Qed.

Lemma atMostOneActive_delete (m : gmap string VoiceProfile) (k : string) :
  atMostOneActive m -> atMostOneActive (delete k m).
Proof.
  intros Hm i j a b Hi Hj.
  apply lookup_delete_Some in Hi as [_ Hi].
  apply lookup_delete_Some in Hj as [_ Hj]. eauto.
Qed.

Lemma deactivated_lookup (m : gmap string VoiceProfile) (j : string) (q : VoiceProfile) :
  (setIsActive false <$> m) !! j = Some q -> isActive q = false.
Proof.
  rewrite lookup_fmap. destruct (m !! j); simpl; [|discriminate].
  now intros [= <-].
Qed.

(** After [setActiveProfile] the active profiles are exactly: the one
    named, when it is stored. *)
Lemma setActiveProfile_lookup (s : VoiceCloningService.t) (profileId j : string)
    (q : VoiceProfile) :
  VoiceCloningService.voiceProfiles
    (snd (VoiceCloningService.setActiveProfile profileId s)) !! j = Some q ->
  isActive q
  = bool_decide (j = profileId /\
                 is_Some (VoiceCloningService.voiceProfiles s !! profileId)).
Proof.
  unfold VoiceCloningService.setActiveProfile.
  rewrite lookup_fmap.
  destruct (VoiceCloningService.voiceProfiles s !! profileId) as [p|] eqn:Hp; simpl.
  - destruct (decide (j = profileId)) as [->|Hne].
    + rewrite lookup_insert_eq. intros [= <-]. simpl.
      symmetry. apply bool_decide_eq_true. eauto.
    + rewrite lookup_insert_ne by congruence. intros Hq.
      rewrite (deactivated_lookup _ _ _ Hq).
      symmetry. apply bool_decide_eq_false. tauto.
  - intros Hq. rewrite (deactivated_lookup _ _ _ Hq).
    symmetry. apply bool_decide_eq_false. intros [_ [? ?]]. discriminate.
Qed.

Lemma setActiveProfile_atMostOneActive (s : VoiceCloningService.t) (profileId : string) :
  atMostOneActive
    (VoiceCloningService.voiceProfiles
       (snd (VoiceCloningService.setActiveProfile profileId s))).
Proof.
  intros i j p q Hi Hj Hp Hq.
  rewrite (setActiveProfile_lookup _ _ _ _ Hi) in Hp.
  rewrite (setActiveProfile_lookup _ _ _ _ Hj) in Hq.
  apply bool_decide_eq_true in Hp as [-> _].
  apply bool_decide_eq_true in Hq as [-> _]. reflexivity.
Qed.

(** The profile map after each event, as a function of the map before. *)
Lemma step_voiceProfiles (narrow : float -> float) (s : VoiceCloningService.t)
    (e : VoiceCloningService.Event) :
  let m := VoiceCloningService.voiceProfiles s in
  let m' := VoiceCloningService.voiceProfiles (VoiceCloningService.step narrow s e) in
  m' = m \/
  (exists k p, isActive p = false /\ m' = <[k := p]> m) \/
  (exists k, m' = delete k m) \/
  (exists k, m' = VoiceCloningService.voiceProfiles
                    (snd (VoiceCloningService.setActiveProfile k s))).
Proof.
  destruct e as [ok|backend clock now profileName audioSamples cs|k|k|text k options|i backend];
    simpl.
  - left. unfold VoiceCloningService.initialize.
    destruct (VoiceCloningService.isInitialized s); [reflexivity|].
    destruct (VoiceCloningModule.initializeVoiceCloning _ _) as [[[|]|] n]; reflexivity.
  - unfold VoiceCloningService.createVoiceProfile.
    destruct (VoiceCloningService.isInitialized s); simpl; [|now left].
    destruct (forEachAwait _ _) as [extracted|err]; simpl; [|now left].
    destruct (VoiceCloningModule.createVoiceProfile _ _ _ _ _ _) as [[[k emb]|err] n];
      simpl; [|now left].
    right. left. eexists _, _. split; [|reflexivity]. reflexivity.
  - right. right. left. exists k. reflexivity.
  - right. right. right. exists k. reflexivity.
  - left. unfold VoiceCloningService.synthesizeVoiceWithCloning.
    destruct (VoiceCloningService.isInitialized s); simpl; [|reflexivity].
    destruct (VoiceCloningService.voiceProfiles s !! k); simpl; [|reflexivity].
    unfold VoiceCloningService.processSynthesisQueue. simpl.
    destruct (VoiceCloningService.isProcessing s); simpl; [reflexivity|].
    case_bool_decide; [reflexivity|].
    unfold VoiceCloningService.drainStep. simpl.
    destruct (VoiceCloningService.synthesisQueue s ++ _); reflexivity.
  - left. unfold VoiceCloningService.resume.
    destruct (VoiceCloningService.running s !! i); [|reflexivity].
    unfold VoiceCloningService.drainStep. simpl.
    destruct (VoiceCloningService.synthesisQueue s); reflexivity.
Qed.

Lemma step_atMostOneActive (narrow : float -> float) (s : VoiceCloningService.t)
    (e : VoiceCloningService.Event) :
  atMostOneActive (VoiceCloningService.voiceProfiles s) ->
  atMostOneActive
    (VoiceCloningService.voiceProfiles (VoiceCloningService.step narrow s e)).
Proof.
  intros Hs.
  destruct (step_voiceProfiles narrow s e)
    as [-> | [(k & p & Hp & ->) | [(k & ->) | (k & ->)]]].
  - assumption.
  - now apply atMostOneActive_insert_inactive.
  - now apply atMostOneActive_delete.
  - apply setActiveProfile_atMostOneActive.
Qed.

Lemma run_atMostOneActive (narrow : float -> float)
    (events : list VoiceCloningService.Event) (s : VoiceCloningService.t) :
  atMostOneActive (VoiceCloningService.voiceProfiles s) ->
  atMostOneActive
    (VoiceCloningService.voiceProfiles (VoiceCloningService.run narrow s events)).
Proof.
  revert s. induction events as [|e events IH]; intros s Hs; simpl; [assumption|].
  apply IH. now apply step_atMostOneActive.
Qed.

(** C3: "at most one stored profile is active" holds of the new service,
    is kept by every event of the service ([createVoiceProfile],
    [setActiveProfile], [deleteVoiceProfile] and the others), hence holds
    after any sequence of them; and [setActiveProfile] with a stored id
    leaves that profile active and every other one inactive. *)
Theorem at_most_one_active_profile :
  atMostOneActive (VoiceCloningService.voiceProfiles VoiceCloningService.initial) /\
  (forall narrow s e,
     atMostOneActive (VoiceCloningService.voiceProfiles s) ->
     atMostOneActive
       (VoiceCloningService.voiceProfiles (VoiceCloningService.step narrow s e))) /\
  (forall narrow events,
     atMostOneActive
       (VoiceCloningService.voiceProfiles
          (VoiceCloningService.run narrow VoiceCloningService.initial events))) /\
  (forall s profileId,
     is_Some (VoiceCloningService.voiceProfiles s !! profileId) ->
     let s' := snd (VoiceCloningService.setActiveProfile profileId s) in
     (exists p, VoiceCloningService.voiceProfiles s' !! profileId = Some p /\
                isActive p = true) /\
     (forall j q, VoiceCloningService.voiceProfiles s' !! j = Some q ->
                  j <> profileId -> isActive q = false)).
Proof.
  split; [apply atMostOneActive_empty|].
  split; [apply step_atMostOneActive|].
  split; [intros; apply run_atMostOneActive, atMostOneActive_empty|].
  intros s profileId Hsome s'. split.
  - destruct Hsome as [p Hp]. subst s'.
    unfold VoiceCloningService.setActiveProfile.
    rewrite lookup_fmap, Hp. simpl. rewrite lookup_insert_eq. eauto.
  - intros j q Hq Hne. subst s'.
    rewrite (setActiveProfile_lookup _ _ _ _ Hq).
    apply bool_decide_eq_false. tauto.
Qed.

Lemma at_most_one_active_profile_witness :
  isActive <$> VoiceCloningService.voiceProfiles Examples.twoProfiles !! "profile_1"
    = Some true /\
  let s' := snd (VoiceCloningService.setActiveProfile "profile_2"
                   Examples.twoProfiles) in
  isActive <$> VoiceCloningService.voiceProfiles s' !! "profile_2" = Some true /\
  isActive <$> VoiceCloningService.voiceProfiles s' !! "profile_1" = Some false.
Proof.
  split; [vm_compute; reflexivity|].
  destruct at_most_one_active_profile as (_ & _ & _ & Hset).
  destruct (Hset Examples.twoProfiles "profile_2") as [(p & Hp & Hactive) Hothers].
  { vm_compute. eauto. }
  cbv zeta. split.
  - rewrite Hp. simpl. now rewrite Hactive.
  - destruct (VoiceCloningService.voiceProfiles
                (snd (VoiceCloningService.setActiveProfile "profile_2"
                        Examples.twoProfiles)) !! "profile_1") as [q|] eqn:Hq;
      [|vm_compute in Hq; discriminate].
    simpl. now rewrite (Hothers "profile_1" q Hq ltac:(discriminate)).
Defined.

(** C9 as stated fails: on a store whose profile [profile_1] is active,
    [setActiveProfile] with an id that is not stored resolves (no error)
    and leaves [profile_1] inactive. *)
Lemma setActiveProfile_unknown_id_deactivates :
  VoiceCloningService.voiceProfiles Examples.oneActive !! "nope" = None /\
  isActive <$> VoiceCloningService.voiceProfiles Examples.oneActive !! "profile_1"
    = Some true /\
  fst (VoiceCloningService.setActiveProfile "nope" Examples.oneActive) = Ok tt /\
  isActive <$>
    VoiceCloningService.voiceProfiles
      (snd (VoiceCloningService.setActiveProfile "nope" Examples.oneActive))
      !! "profile_1"
    = Some false.
Proof. repeat split; vm_compute; reflexivity. Qed.

(** C9, amended: [setActiveProfile] with an id that is not stored raises
    no error; it resolves, and the store it leaves is the old one with
    every profile's [isActive] set to [false] (the same ids, every other
    field unchanged), so that no profile is active afterwards. *)
Theorem setActiveProfile_unknown_id (s : VoiceCloningService.t) (profileId : string) :
  VoiceCloningService.voiceProfiles s !! profileId = None ->
  fst (VoiceCloningService.setActiveProfile profileId s) = Ok tt /\
  VoiceCloningService.voiceProfiles
    (snd (VoiceCloningService.setActiveProfile profileId s))
  = (setIsActive false <$> VoiceCloningService.voiceProfiles s) /\
  forall j q,
    VoiceCloningService.voiceProfiles
      (snd (VoiceCloningService.setActiveProfile profileId s)) !! j = Some q ->
    isActive q = false.
Proof.
  intros Hnone.
  assert (Heq : VoiceCloningService.setActiveProfile profileId s
                = (Ok tt, VoiceCloningService.withProfiles
                            (setIsActive false <$> VoiceCloningService.voiceProfiles s) s)).
  { unfold VoiceCloningService.setActiveProfile.
    now rewrite lookup_fmap, Hnone. }
  rewrite Heq. simpl. repeat split.
  intros j q Hq. exact (deactivated_lookup _ _ _ Hq).
Qed.

Lemma setActiveProfile_unknown_id_witness :
  VoiceCloningService.voiceProfiles Examples.oneActive !! "nope" = None /\
  fst (VoiceCloningService.setActiveProfile "nope" Examples.oneActive) = Ok tt.
Proof.
  split; [vm_compute; reflexivity|].
  apply (setActiveProfile_unknown_id Examples.oneActive "nope").
  vm_compute; reflexivity.
Defined.

(** ** Voice comparison *)

Lemma sum_of_squares_ge (v : list R) (a : R) :
  (a <= fold_left Rplus (map (fun xy => fst xy * snd xy) (combine v v)) a)%R.
Proof.
  revert a. induction v as [|x v IH]; intros a; simpl; [lra|].
  specialize (IH (a + x * x)%R). nra.
Qed.

Lemma sum_of_squares_gt (v : list R) (a : R) :
  Exists (fun x => x <> 0%R) v ->
  (a < fold_left Rplus (map (fun xy => fst xy * snd xy) (combine v v)) a)%R.
Proof.
  intros Hex. revert a. induction Hex as [x v Hx|x v _ IH]; intros a; simpl.
  - pose proof (sum_of_squares_ge v (a + x * x)%R). nra.
  - specialize (IH (a + x * x)%R). nra.
Qed.

(** Over the reals, a vector with a non-zero component has similarity 1
    with itself. *)
Lemma calculateCosineSimilarityR_self (v : list R) :
  Exists (fun x => x <> 0%R) v -> calculateCosineSimilarityR v v = 1%R.
Proof.
  intros Hex.
  rewrite calculateCosineSimilarity_same_length by reflexivity.
  unfold Generic.cosine, Generic.dot, Generic.total.
  pose proof (sum_of_squares_gt v 0%R Hex) as Hpos.
  set (d := fold_left Rplus _ 0%R) in *.
  rewrite sqrt_sqrt by lra. field. lra.
Qed.

Lemma compareVoices_found (narrow : float -> float) (s : VoiceCloningService.t)
    (profileId1 profileId2 : string) (p1 p2 : VoiceCloningModule.NativeProfile) :
  VoiceCloningService.isInitialized s = true ->
  VoiceCloningModule.voiceProfiles (VoiceCloningService.nativeModule s) !! profileId1
    = Some p1 ->
  VoiceCloningModule.voiceProfiles (VoiceCloningService.nativeModule s) !! profileId2
    = Some p2 ->
  VoiceCloningService.compareVoices narrow profileId1 profileId2 s
  = Ok (VoiceCloningModule.calculateCosineSimilarity narrow
          (VoiceCloningModule.nativeEmbeddings p1)
          (VoiceCloningModule.nativeEmbeddings p2)).
Proof.
  intros Hinit H1 H2.
  unfold VoiceCloningService.compareVoices, VoiceCloningModule.compareVoiceProfiles.
  now rewrite Hinit, H1, H2.
Qed.

Lemma compareVoices_degraded (narrow : float -> float) (s : VoiceCloningService.t)
    (profileId1 profileId2 : string) :
  VoiceCloningService.isInitialized s = false \/
  VoiceCloningModule.voiceProfiles (VoiceCloningService.nativeModule s) !! profileId1
    = None \/
  VoiceCloningModule.voiceProfiles (VoiceCloningService.nativeModule s) !! profileId2
    = None ->
  VoiceCloningService.compareVoices narrow profileId1 profileId2 s = Ok 0%float.
Proof.
  unfold VoiceCloningService.compareVoices, VoiceCloningModule.compareVoiceProfiles.
  destruct (VoiceCloningService.isInitialized s); simpl.
  - intros [?|[->| H2]]; [discriminate|reflexivity|].
    rewrite H2. now destruct (_ !! profileId1).
  - reflexivity.
Qed.

Lemma compareVoices_total (narrow : float -> float) (s : VoiceCloningService.t)
    (profileId1 profileId2 : string) :
  exists v, VoiceCloningService.compareVoices narrow profileId1 profileId2 s = Ok v.
Proof.
  unfold VoiceCloningService.compareVoices.
  destruct (negb _); simpl; [eauto|].
  destruct (VoiceCloningModule.compareVoiceProfiles _ _ _ _); simpl; eauto.
Qed.




(** ** The synthesis queue *)

Lemma queueInvariant_initial : queueInvariant VoiceCloningService.initial.
Proof. repeat split; simpl; auto; try discriminate; congruence. Qed.

Lemma sameQueue_invariant (s s' : VoiceCloningService.t) :
  sameQueue s s' -> queueInvariant s -> queueInvariant s'.
Proof.
  intros (Hq & Hp & Hr & Hs & Hn). unfold queueInvariant.
  now rewrite Hq, Hp, Hr, Hs, Hn.
Qed.

Lemma initialize_sameQueue (ok : bool) (s : VoiceCloningService.t) :
  sameQueue s (snd (VoiceCloningService.initialize ok s)).
Proof.
  unfold VoiceCloningService.initialize.
  destruct (VoiceCloningService.isInitialized s); [repeat split|].
  destruct (VoiceCloningModule.initializeVoiceCloning _ _) as [[[|]|] n];
    repeat split.
Qed.

Lemma createVoiceProfile_sameQueue (narrow : float -> float) (backend : Backend)
    (clock : string) (now : Z) (profileName : string) (audioSamples : list string)
    (cs : option VoiceCharacteristics) (s : VoiceCloningService.t) :
  sameQueue s (snd (VoiceCloningService.createVoiceProfile narrow backend clock now
                      profileName audioSamples cs s)).
Proof.
  unfold VoiceCloningService.createVoiceProfile.
  destruct (VoiceCloningService.isInitialized s); simpl; [|repeat split].
  destruct (forEachAwait _ _); simpl; [|repeat split].
  destruct (VoiceCloningModule.createVoiceProfile _ _ _ _ _ _) as [[[k emb]|err] n];
    repeat split.
Qed.

(** A call of [synthesizeVoiceWithCloning] either throws and changes
    nothing, or queues a request under the next promise. *)
Lemma synthesizeVoiceWithCloning_cases (text profileId : string)
    (options : VoiceSynthesisOptions) (s : VoiceCloningService.t) :
  (exists e, VoiceCloningService.synthesizeVoiceWithCloning text profileId options s
             = (Err e, s)) \/
  (VoiceCloningService.synthesizeVoiceWithCloning text profileId options s
   = (Ok (VoiceCloningService.promises s),
      VoiceCloningService.processSynthesisQueue
        (VoiceCloningService.withPromises (S (VoiceCloningService.promises s))
           (VoiceCloningService.withQueue
              (VoiceCloningService.synthesisQueue s
               ++ [{| VoiceCloningService.text := text;
                      VoiceCloningService.profileId := profileId;
                      VoiceCloningService.options := options;
                      VoiceCloningService.promise := VoiceCloningService.promises s |}])
              s)))).
Proof.
  unfold VoiceCloningService.synthesizeVoiceWithCloning.
  destruct (VoiceCloningService.isInitialized s); simpl; [|eauto].
  destruct (VoiceCloningService.voiceProfiles s !! profileId); simpl; eauto.
Qed.

Lemma seq_snoc (n : nat) : seq 0 (S n) = seq 0 n ++ [n].
Proof. now rewrite seq_S. Qed.

Lemma synthesizeVoiceWithCloning_invariant (text profileId : string)
    (options : VoiceSynthesisOptions) (s : VoiceCloningService.t) :
  queueInvariant s ->
  queueInvariant
    (snd (VoiceCloningService.synthesizeVoiceWithCloning text profileId options s)).
Proof.
  intros Hinv.
  destruct (synthesizeVoiceWithCloning_cases text profileId options s)
    as [[e ->] | ->]; [exact Hinv|].
  destruct Hinv as (Hone & Hproc & Hidle & Hfifo).
  destruct s as [init profs q proc native run sett n]; simpl in *.
  unfold VoiceCloningService.processSynthesisQueue; simpl.
  destruct proc; simpl.
  - (* a worker is active: the request waits *)
    unfold queueInvariant; simpl. repeat split; auto.
    + apply Hproc.
    + intros Hrun. exfalso. now apply (proj1 Hproc).
    + rewrite map_app, !app_assoc, <- (app_assoc (map fst sett)), Hfifo.
      simpl. symmetry. exact (seq_snoc n).
  - (* no worker: this call starts one, which takes the request *)
    assert (Hrun : run = []).
    { destruct run; [reflexivity|]. exfalso.
      assert (false = true) by now apply (proj2 Hproc). discriminate. }
    subst run. rewrite (Hidle eq_refl) in *. simpl in *.
    unfold VoiceCloningService.drainStep, queueInvariant; simpl.
    repeat split; auto; try discriminate.
    rewrite app_nil_r in Hfifo. rewrite Hfifo. symmetry. exact (seq_snoc n).
Qed.

(** A resumption when exactly the worker [w] is suspended. *)
Lemma resume_invariant (i : nat) (backend : Backend) (s : VoiceCloningService.t) :
  queueInvariant s -> queueInvariant (VoiceCloningService.resume i backend s).
Proof.
  intros (Hone & Hproc & Hidle & Hfifo).
  unfold VoiceCloningService.resume.
  destruct (VoiceCloningService.running s !! i) as [w|] eqn:Hw;
    [|exact (conj Hone (conj Hproc (conj Hidle Hfifo)))].
  destruct s as [init profs q proc native run sett n]; simpl in *.
  destruct run as [|w' [|w'' run]]; simpl in *; [discriminate| |lia].
  destruct i as [|i]; simpl in Hw; [|discriminate]. injection Hw as ->.
  assert (proc = true) as -> by (apply Hproc; discriminate).
  unfold VoiceCloningService.drainStep, queueInvariant; simpl.
  destruct q as [|r rest]; simpl in *.
  - repeat split; auto; try discriminate; try congruence.
    rewrite map_app, app_nil_r. simpl. exact Hfifo.
  - repeat split; auto; try discriminate.
    rewrite map_app, <- app_assoc. simpl. exact Hfifo.
Qed.

Lemma step_queueInvariant (narrow : float -> float) (s : VoiceCloningService.t)
    (e : VoiceCloningService.Event) :
  queueInvariant s -> queueInvariant (VoiceCloningService.step narrow s e).
Proof.
  destruct e as [ok|backend clock now profileName audioSamples cs|k|k|text k options|i backend];
    simpl.
  - apply sameQueue_invariant, initialize_sameQueue.
  - apply sameQueue_invariant, createVoiceProfile_sameQueue.
  - apply sameQueue_invariant. repeat split.
  - apply sameQueue_invariant. unfold VoiceCloningService.setActiveProfile.
    destruct (_ !! k); repeat split.
  - apply synthesizeVoiceWithCloning_invariant.
  - apply resume_invariant.
Qed.

Lemma run_queueInvariant (narrow : float -> float)
    (events : list VoiceCloningService.Event) (s : VoiceCloningService.t) :
  queueInvariant s -> queueInvariant (VoiceCloningService.run narrow s events).
Proof.
  revert s. induction events as [|e events IH]; intros s Hs; simpl; [assumption|].
  apply IH. now apply step_queueInvariant.
Qed.

(** Serving the head of the pending requests: it settles with its own
    outcome, whatever that is, and the next request is taken up. *)
Lemma resume_head (backend : Backend) (s : VoiceCloningService.t)
    (w : VoiceCloningService.Worker) (ws : list VoiceCloningService.Worker) :
  queueInvariant s -> pending s = w :: ws ->
  let s' := VoiceCloningService.resume 0 backend s in
  pending s' = ws /\
  VoiceCloningService.settled s' = VoiceCloningService.settled s ++ [serve backend w].
Proof.
  intros (Hone & Hproc & Hidle & Hfifo) Hpending.
  unfold pending in *.
  destruct s as [init profs q proc native run sett n]; simpl in *.
  destruct run as [|w' [|w'' run]]; simpl in *; [|injection Hpending as -> <-|lia].
  - rewrite (Hidle eq_refl) in Hpending. discriminate.
  - unfold VoiceCloningService.resume, VoiceCloningService.drainStep; simpl.
    destruct q as [|r rest]; simpl; split; reflexivity.
Qed.

(** Draining: as many resumptions as there are pending requests settle all
    of them, in order, each with the outcome of its own synthesis, and
    leave the worker stopped. *)
Lemma drain (narrow : float -> float) (backends : list Backend)
    (s : VoiceCloningService.t) :
  queueInvariant s -> length backends = length (pending s) ->
  let s' := VoiceCloningService.run narrow s
              (map (VoiceCloningService.Resume 0) backends) in
  VoiceCloningService.settled s'
  = VoiceCloningService.settled s ++ zip_with serve backends (pending s) /\
  VoiceCloningService.running s' = [] /\
  VoiceCloningService.synthesisQueue s' = [] /\
  VoiceCloningService.isProcessing s' = false.
Proof.
  revert s. induction backends as [|b backends IH]; intros s Hinv Hlen; simpl.
  - destruct (pending s) as [|w ws] eqn:Hp; [|discriminate].
    unfold pending in Hp. apply app_eq_nil in Hp as [Hrun _].
    destruct Hinv as (_ & Hproc & Hidle & _).
    rewrite app_nil_r. repeat split; auto.
    destruct (VoiceCloningService.isProcessing s) eqn:E; [|reflexivity].
    exfalso. now apply (proj1 Hproc).
  - destruct (pending s) as [|w ws] eqn:Hp; [discriminate|].
    destruct (resume_head b s w ws Hinv Hp) as [Hp' Hs'].
    specialize (IH (VoiceCloningService.resume 0 b s)
                   (resume_invariant 0 b s Hinv)).
    rewrite Hp' in IH. simpl in Hlen.
    destruct (IH ltac:(lia)) as (Hsettled & Hrest).
    split; [|exact Hrest].
    rewrite Hsettled, Hs', <- app_assoc. reflexivity.
Qed.

(** C1: in every state the service can reach, at most one synthesis is in
    flight; promises are numbered in the order their requests are queued,
    and the promises settled so far, followed by the pending ones, are
    exactly these numbers in increasing order, so requests settle in
    submission order; and whatever the outcome of each synthesis (resolved
    or rejected), resuming the worker once per pending request settles
    every pending request, in order, each with the outcome of its own
    synthesis, and stops the worker with an empty queue. *)
Theorem synthesis_queue_is_serial_and_fifo (narrow : float -> float)
    (events : list VoiceCloningService.Event) :
  let s := VoiceCloningService.run narrow VoiceCloningService.initial events in
  (length (VoiceCloningService.running s) <= 1)%nat /\
  (forall text profileId options n,
     fst (VoiceCloningService.synthesizeVoiceWithCloning text profileId options s)
       = Ok n ->
     n = VoiceCloningService.promises s /\
     VoiceCloningService.promises
       (snd (VoiceCloningService.synthesizeVoiceWithCloning text profileId options s))
     = S n) /\
  map fst (VoiceCloningService.settled s) ++ map promiseOf (pending s)
    = seq 0 (VoiceCloningService.promises s) /\
  (forall backends,
     length backends = length (pending s) ->
     let s' := VoiceCloningService.run narrow s
                 (map (VoiceCloningService.Resume 0) backends) in
     VoiceCloningService.settled s'
     = VoiceCloningService.settled s ++ zip_with serve backends (pending s) /\
     VoiceCloningService.running s' = [] /\
     VoiceCloningService.synthesisQueue s' = [] /\
     VoiceCloningService.isProcessing s' = false).
Proof.
  intros s.
  assert (Hinv : queueInvariant s)
    by apply run_queueInvariant, queueInvariant_initial.
  split; [apply Hinv|]. split; [|split].
  - intros text profileId options n.
    destruct (synthesizeVoiceWithCloning_cases text profileId options s)
      as [[e ->] | ->]; simpl; [discriminate|].
    intros [= <-]. split; [reflexivity|].
    unfold VoiceCloningService.processSynthesisQueue; simpl.
    destruct (VoiceCloningService.isProcessing s); simpl; [reflexivity|].
    case_bool_decide; [reflexivity|].
    unfold VoiceCloningService.drainStep; simpl.
    destruct (VoiceCloningService.synthesisQueue s ++ _); reflexivity.
  - destruct Hinv as (_ & _ & _ & Hfifo).
    unfold pending. rewrite map_app, map_map. exact Hfifo.
  - intros backends Hlen. now apply drain.
Qed.

Lemma synthesis_queue_is_serial_and_fifo_witness :
  let s := VoiceCloningService.run Examples.keep VoiceCloningService.initial
             Examples.threeRequests in
  let backends := [Examples.backend; Examples.backend; Examples.backend] in
  let s' := VoiceCloningService.run Examples.keep s
              (map (VoiceCloningService.Resume 0) backends) in
  length backends = length (pending s) /\
  map fst (VoiceCloningService.settled s') = [0; 1; 2]%nat /\
  map (fun e => isOk (snd e)) (VoiceCloningService.settled s') = [true; false; true] /\
  VoiceCloningService.isProcessing s' = false.
Proof.
  cbv zeta.
  destruct (synthesis_queue_is_serial_and_fifo Examples.keep Examples.threeRequests)
    as (_ & _ & _ & Hdrain).
  assert (Hlen : length [Examples.backend; Examples.backend; Examples.backend]
                 = length (pending (VoiceCloningService.run Examples.keep
                                      VoiceCloningService.initial
                                      Examples.threeRequests)))
    by (vm_compute; reflexivity).
  destruct (Hdrain _ Hlen) as (Hsettled & _ & _ & Hstopped).
  split; [exact Hlen|].
  rewrite Hsettled.
  split; [vm_compute; reflexivity|].
  split; [vm_compute; reflexivity|exact Hstopped].
Defined.

(** ** The similarity reported by queued synthesis *)

Lemma performVoiceSynthesis_similarity (backend : Backend)
    (profile : option VoiceProfile) (text profileId : string)
    (options : VoiceSynthesisOptions) (r : VoiceCloneResult) :
  VoiceCloningService.performVoiceSynthesis backend profile text profileId options
    = Ok r ->
  similarity r = 0.95%float.
Proof.
  unfold VoiceCloningService.performVoiceSynthesis, mbind, Result_bind.
  repeat match goal with
         | |- context [match ?x with _ => _ end] => destruct x; try discriminate
         end.
  all: now intros [= <-].
Qed.

Lemma step_settled (narrow : float -> float) (s : VoiceCloningService.t)
    (e : VoiceCloningService.Event) :
  VoiceCloningService.settled (VoiceCloningService.step narrow s e)
    = VoiceCloningService.settled s \/
  exists backend w,
    VoiceCloningService.settled (VoiceCloningService.step narrow s e)
    = VoiceCloningService.settled s ++ [serve backend w].
Proof.
  destruct e as [ok|backend clock now profileName audioSamples cs|k|k|text k options|i backend];
    simpl.
  - left. apply initialize_sameQueue.
  - left. apply createVoiceProfile_sameQueue.
  - left. reflexivity.
  - left. unfold VoiceCloningService.setActiveProfile. now destruct (_ !! k).
  - left.
    destruct (synthesizeVoiceWithCloning_cases text k options s) as [[err ->] | ->];
      [reflexivity|]. simpl.
    unfold VoiceCloningService.processSynthesisQueue; simpl.
    destruct (VoiceCloningService.isProcessing s); simpl; [reflexivity|].
    case_bool_decide; [reflexivity|].
    unfold VoiceCloningService.drainStep; simpl.
    destruct (VoiceCloningService.synthesisQueue s ++ _); reflexivity.
  - unfold VoiceCloningService.resume.
    destruct (VoiceCloningService.running s !! i) as [w|]; [|now left].
    right. exists backend, w.
    unfold VoiceCloningService.drainStep; simpl.
    destruct (VoiceCloningService.synthesisQueue s); reflexivity.
Qed.

Lemma run_settled_constant (narrow : float -> float)
    (events : list VoiceCloningService.Event) (s : VoiceCloningService.t) :
  Forall reportsConstant (VoiceCloningService.settled s) ->
  Forall reportsConstant
    (VoiceCloningService.settled (VoiceCloningService.run narrow s events)).
Proof.
  revert s. induction events as [|e events IH]; intros s Hs; simpl; [assumption|].
  apply IH.
  destruct (step_settled narrow s e) as [-> | (backend & w & ->)]; [assumption|].
  apply Forall_app. split; [assumption|].
  constructor; [|constructor].
  intros r Hr. exact (performVoiceSynthesis_similarity _ _ _ _ _ _ Hr).
Qed.

(** C10: whenever [performVoiceSynthesis] resolves, the similarity of its
    result is the literal 0.95, whatever the text, the profile, the options
    and the answers of the native module; hence every promise the queue
    worker has resolved, in any reachable state, carries similarity 0.95. *)
Theorem queued_synthesis_similarity_is_constant :
  (forall backend profile text profileId options r,
     VoiceCloningService.performVoiceSynthesis backend profile text profileId options
       = Ok r ->
     similarity r = 0.95%float) /\
  (forall narrow events p r,
     In (p, Ok r)
        (VoiceCloningService.settled
           (VoiceCloningService.run narrow VoiceCloningService.initial events)) ->
     similarity r = 0.95%float).
Proof.
  split; [exact performVoiceSynthesis_similarity|].
  intros narrow events p r Hin.
  pose proof (run_settled_constant narrow events VoiceCloningService.initial
                (List.Forall_nil _)) as Hall.
  rewrite List.Forall_forall in Hall.
  exact (Hall _ Hin r eq_refl).
Qed.

Lemma queued_synthesis_similarity_is_constant_witness :
  exists r,
    VoiceCloningService.performVoiceSynthesis Examples.backend None
      "one" "profile_1"
      {| language := "es"; optCharacteristics := Some defaultCharacteristics;
         optQuality := Some high; realTime := None |} = Ok r /\
    audioPath r = "/out/one.wav" /\
    similarity r = 0.95%float.
Proof.
  eexists. split; [vm_compute; reflexivity|]. split; [vm_compute; reflexivity|].
  apply (proj1 queued_synthesis_similarity_is_constant Examples.backend None
           "one" "profile_1"
           {| language := "es"; optCharacteristics := Some defaultCharacteristics;
              optQuality := Some high; realTime := None |}).
  vm_compute. reflexivity.
Defined.

(** ** Temporary audio files *)

Lemma lookup_after_native (produced fs : gmap string string) (path data : string) :
  is_Some ((produced ∪ <[path := data]> fs) !! path).
Proof.
  apply lookup_union_is_Some. right. rewrite lookup_insert_eq. eauto.
Qed.

(** The success path of [processRealTimeAudio] removes the temporary file:
    the chunk [c1] is translated and [/tmp/temp_audio_c1.wav] is gone. *)
Example processRealTimeAudio_success_removes_temp :
  let out := SeamlessM4TService.processRealTimeAudio "/tmp" Examples.model
               Examples.rendered 0 Examples.chunk "en" "es"
               {| SeamlessM4TService.isInitialized := true;
                  SeamlessM4TService.isModelLoaded := true |} ∅ in
  (exists tr, fst out = Ok (Some ("T2dnUw==", tr))) /\
  snd out !! "/tmp/temp_audio_c1.wav" = None.
Proof. split; [eexists|]; vm_compute; reflexivity. Qed.

(** C5 on the code: a cycle that fails after the chunk was written returns
    [null] and leaves the temporary file in place.  This holds of
    [SeamlessM4TService.processRealTimeAudio] when the service is not
    initialized and when the model rejects the request, and of
    [VoiceCloningService.processRealTimeVoiceCloning] when the profile id
    is not stored and when cloning from the sample is rejected. *)
Theorem temporary_file_survives_failed_cycle :
  (forall tmp model produced now chunk source target loaded fs,
     let out := SeamlessM4TService.processRealTimeAudio tmp model produced now
                  chunk source target
                  {| SeamlessM4TService.isInitialized := false;
                     SeamlessM4TService.isModelLoaded := loaded |} fs in
     fst out = Ok None /\
     is_Some (snd out !! SeamlessM4TService.tempAudioPath tmp chunk)) /\
  (forall tmp e produced now chunk source target fs,
     let out := SeamlessM4TService.processRealTimeAudio tmp (fun _ _ _ => Err e)
                  produced now chunk source target
                  {| SeamlessM4TService.isInitialized := true;
                     SeamlessM4TService.isModelLoaded := true |} fs in
     fst out = Ok None /\
     is_Some (snd out !! SeamlessM4TService.tempAudioPath tmp chunk)) /\
  (forall tmp backend queued produced chunk translated target fs,
     let out := VoiceCloningService.processRealTimeVoiceCloning tmp backend queued
                  produced chunk translated target (Some "nope") Examples.ready fs in
     fst out = Ok None /\
     snd out !! VoiceCloningService.tempVoicePath tmp chunk = Some (chunkData chunk)) /\
  (forall tmp queued produced chunk translated target fs,
     let out := VoiceCloningService.processRealTimeVoiceCloning tmp Examples.backend
                  queued produced chunk translated target None Examples.ready fs in
     fst out = Ok None /\
     is_Some (snd out !! VoiceCloningService.tempVoicePath tmp chunk)).
Proof.
  split; [|split; [|split]]; intros; subst out.
  - split; [reflexivity|]. apply lookup_after_native.
  - split; [reflexivity|]. apply lookup_after_native.
  - split; [reflexivity|]. apply lookup_insert_eq.
  - split; [reflexivity|]. apply lookup_after_native.
Qed.

(** ** The capture loop of a call *)

Lemma ticks_of_first_render (n : nat) (s : CallScreen.t) :
  CallScreen.translationTimer s = Some CallScreen.firstRender ->
  let s' := CallScreen.run s (repeat (CallScreen.TimerFires true) n) in
  CallScreen.captureStarts s' = (CallScreen.captureStarts s + n)%nat /\
  CallScreen.cyclesInFlight s' = (CallScreen.cyclesInFlight s + n)%nat /\
  CallScreen.cyclesCompleted s' = CallScreen.cyclesCompleted s.
Proof.
  revert s. induction n as [|n IH]; intros s Htimer; simpl.
  - repeat split; lia.
  - rewrite Htimer. simpl.
    match goal with |- context [CallScreen.run ?s1 _] =>
      destruct (IH s1 Htimer) as (H1 & H2 & H3) end.
    simpl in *. rewrite H1, H2, H3. repeat split; lia.
Qed.

(** C6 on the code: the interval started when the call connects belongs to
    the first render, whose [isRecording] is [false] for ever; each of its
    ticks starts a capture, whether or not earlier cycles have finished.
    After [n] ticks with no cycle finished, [n] captures were started and
    [n] cycles are in flight. *)
Theorem cadence_tick_starts_capture_during_cycle (n : nat) :
  let s := CallScreen.run CallScreen.mounted
             (CallScreen.Connected :: repeat (CallScreen.TimerFires true) n) in
  CallScreen.captureStarts s = n /\
  CallScreen.cyclesInFlight s = n /\
  CallScreen.cyclesCompleted s = 0%nat.
Proof.
  simpl.
  exact (ticks_of_first_render n
           (CallScreen.startTranslation CallScreen.firstRender CallScreen.mounted)
           eq_refl).
Qed.

(** Two ticks while the first cycle is still in flight: two captures. *)
Example two_ticks_two_captures :
  let s := CallScreen.run CallScreen.mounted
             [CallScreen.Connected; CallScreen.TimerFires true;
              CallScreen.TimerFires true] in
  CallScreen.isRecordingCell s = true /\
  CallScreen.captureStarts s = 2%nat /\
  CallScreen.cyclesInFlight s = 2%nat /\
  CallScreen.cyclesCompleted s = 0%nat.
Proof. repeat split. Qed.

(** ** Translation fallback *)


(** In [VoiceService.translateVoice] the branch taken when the on-device
    backend is not ready calls that same backend again: it fails, and no
    other backend produces a translation there. *)
Lemma translateVoice_unready (documents stamp : string)
    (model : SeamlessM4TService.Model) (produced : gmap string string) (now : Z)
    (audioPath source target : string) (s : VoiceService.t)
    (m : SeamlessM4TService.t) (fs : gmap string string) :
  SeamlessM4TService.isReady m = false ->
  exists e,
    fst (VoiceService.translateVoice documents stamp model produced now audioPath
           source target s m fs) = Err e.
Proof.
  intros Hready. unfold VoiceService.translateVoice.
  rewrite Hready, andb_false_r.
  unfold VoiceService.translateVoiceWithAPI, RNFS.seq, RNFS.native,
    SeamlessM4TService.translateSpeechToSpeech,
    SeamlessM4TService.nativeTranslateSpeechToSpeech.
  unfold SeamlessM4TService.isReady in Hready.
  destruct (SeamlessM4TService.isInitialized m); simpl in *; [|eauto].
  rewrite Hready. simpl. eauto.
Qed.


